(** * klepto2: a shallow embedding of the image-scanning pipeline

    The development follows [klepto2.py]: the text operations of the
    Python runtime the program relies on, JSON values as [json.loads]
    returns them, the detector-A filter ([parse_trufflehog_results]),
    the tag resolution of [process_image] with [HubClient.get_best_tag],
    the layer extractor ([extract_image]), the file pattern scanner
    ([FileScanner]), the per-image pipeline ([process_image]) and the
    scheduler ([run]).

    Conventions.
    - Text is a [string] whose characters are code points below 256
      (Latin-1).  [str_lower], [str_splitlines] and [strip_nonempty]
      follow Python's [str] methods on that range.
    - A JSON number is an integer ([JNum]); floating-point literals are
      outside the model.
    - A Python [dict] read from JSON is an association list read by its
      first matching key.
    - External collaborators (Docker Hub, skopeo, tar, trufflehog,
      gitleaks, the file system, the clock) are fields of a [World]
      record: the answers the program observes.
    - An exception is a [Raise] result.  A computation is the list of
      events it performs (calls to collaborators, writes to the output
      directory) with the way it ends; the statements of the program are
      sequenced in that monad, and the content of the output directory is
      read off the events ([written]).
    - The worker pool of [run] is modelled by running the submitted tasks
      one after the other, in the order the set of names is listed; a
      number of workers that is not positive makes the executor raise
      [ValueError] before a task is submitted.
    - Log lines are not recorded, apart from the error the handler of
      [run] logs for a failed task; the creation of directories is not
      modelled.
    - The output directory is read as the documents it holds: a file
      that a failed write left truncated holds no document. *)

From Stdlib Require Import ZArith String Ascii List Bool Lia.
From stdpp Require Import base gmap strings list.
Import ListNotations.

Set Warnings "-register-all".
Local Open Scope string_scope.
Local Open Scope Z_scope.
Local Open Scope list_scope.

(** ** Python text operations *)

Module Text.

(** Code point of a character. *)
Definition ord (c : ascii) : N := N_of_ascii c.

Definition in_range (lo hi : N) (c : ascii) : bool :=
  (N.leb lo (ord c) && N.leb (ord c) hi)%bool.

(** [str.lower] on one character: A-Z, and the Latin-1 capitals
    U+00C0..U+00DE except the multiplication sign U+00D7. *)
Definition lower_char (c : ascii) : ascii :=
  if (in_range 65 90 c
      || (in_range 192 222 c && negb (N.eqb (ord c) 215)))%bool
  then ascii_of_N (ord c + 32)
  else c.

(** [s.lower()] *)
Fixpoint str_lower (s : string) : string :=
  match s with
  | EmptyString => EmptyString
  | String c r => String (lower_char c) (str_lower r)
  end.

(** [s.startswith(p)] *)
Fixpoint startswith (p s : string) : bool :=
  match p, s with
  | EmptyString, _ => true
  | String a p', String b s' => (Ascii.eqb a b && startswith p' s')%bool
  | String _ _, EmptyString => false
  end.

(** [needle in hay] on strings: some suffix of [hay] starts with
    [needle]. *)
Fixpoint str_in (needle hay : string) : bool :=
  match hay with
  | EmptyString => startswith needle EmptyString
  | String _ r => (startswith needle hay || str_in needle r)%bool
  end.

(** [c in s] for a single character. *)
Fixpoint char_in (c : ascii) (s : string) : bool :=
  match s with
  | EmptyString => false
  | String a r => (Ascii.eqb c a || char_in c r)%bool
  end.

(** [s.split(sep)] for a one-character separator: always at least one
    piece. *)
Fixpoint str_split (sep : ascii) (s : string) : list string :=
  match s with
  | EmptyString => [EmptyString]
  | String c r =>
      if Ascii.eqb c sep then EmptyString :: str_split sep r
      else match str_split sep r with
           | p :: ps => String c p :: ps
           | [] => [String c EmptyString]
           end
  end.

(** [s.replace(old, new)] for a non-empty [old]: occurrences are
    replaced left to right without overlap.  [skip] counts the
    characters of a match that are still to be dropped. *)
Fixpoint replace_from (old new : string) (skip : nat) (s : string) : string :=
  match s with
  | EmptyString => EmptyString
  | String c r =>
      match skip with
      | S k => replace_from old new k r
      | O =>
          if startswith old s
          then new +:+ replace_from old new (Nat.pred (String.length old)) r
          else String c (replace_from old new O r)
      end
  end.

Definition str_replace (old new s : string) : string :=
  replace_from old new O s.

(** Line boundaries of [str.splitlines]: LF, CR, VT, FF, FS, GS, RS and
    NEL (CR LF counts once). *)
Definition is_linebreak (c : ascii) : bool :=
  (in_range 10 13 c || in_range 28 30 c || N.eqb (ord c) 133)%bool.

(** [splitlines_from cur skip_lf s]: [cur] is the line read so far;
    [skip_lf] holds just after a CR, whose LF belongs to the same
    boundary. *)
Fixpoint splitlines_from (cur : string) (skip_lf : bool) (s : string)
  : list string :=
  match s with
  | EmptyString =>
      match cur with
      | EmptyString => []
      | _ => [cur]
      end
  | String c r =>
      if (skip_lf && N.eqb (ord c) 10)%bool then splitlines_from cur false r
      else if is_linebreak c
           then cur :: splitlines_from EmptyString (N.eqb (ord c) 13) r
           else splitlines_from (cur +:+ String c EmptyString) false r
  end.

(** [s.splitlines()] *)
Definition str_splitlines (s : string) : list string :=
  splitlines_from EmptyString false s.

(** White space of [str.strip]. *)
Definition is_space (c : ascii) : bool :=
  (in_range 9 13 c || in_range 28 32 c
   || N.eqb (ord c) 133 || N.eqb (ord c) 160)%bool.

(** [bool(s.strip())]: some character is not white space. *)
Fixpoint strip_nonempty (s : string) : bool :=
  match s with
  | EmptyString => false
  | String c r => (negb (is_space c) || strip_nonempty r)%bool
  end.

(** [os.path.join(a, b)] on POSIX. *)
Fixpoint ends_with_slash (s : string) : bool :=
  match s with
  | EmptyString => false
  | String c EmptyString => Ascii.eqb c "/"
  | String _ r => ends_with_slash r
  end.

Definition path_join (a b : string) : string :=
  if startswith "/" b then b
  else if (String.eqb a EmptyString || ends_with_slash a)%bool then a +:+ b
  else a +:+ "/" +:+ b.

End Text.

(** ** JSON values and the Python operations applied to them *)

Inductive json : Type :=
| JNull
| JBool (b : bool)
| JNum (z : Z)
| JStr (s : string)
| JArr (l : list json)
| JObj (d : list (string * json)).

(** Exceptions the program can meet. *)
Inductive exn : Type :=
| AttributeError
| TypeError
| KeyError
| OSError
| UnicodeDecodeError
| ValueError
| RecursionError.

Inductive result (A : Type) : Type :=
| Ok (a : A)
| Raise (e : exn).
Arguments Ok {A} a.
Arguments Raise {A} e.

(** [d.get(k)] read as an option: [None] when the key is missing. *)
Fixpoint dict_get (k : string) (d : list (string * json)) : option json :=
  match d with
  | [] => None
  | (k', v) :: r => if String.eqb k k' then Some v else dict_get k r
  end.

(** [d.get(k, dflt)] *)
Definition dict_get_or (k : string) (dflt : json) (d : list (string * json))
  : json :=
  match dict_get k d with
  | Some v => v
  | None => dflt
  end.

(** [bool(v)] *)
Definition truthy (v : json) : bool :=
  match v with
  | JNull => false
  | JBool b => b
  | JNum z => negb (Z.eqb z 0)
  | JStr s => negb (String.eqb s EmptyString)
  | JArr l => match l with [] => false | _ => true end
  | JObj d => match d with [] => false | _ => true end
  end.

(** [v in codes] for a list of integers: Python compares by [==], under
    which a boolean equals 0 or 1 and no other kind of value equals an
    integer. *)
Definition in_int_list (v : json) (codes : list Z) : bool :=
  match v with
  | JNum z => existsb (Z.eqb z) codes
  | JBool b => existsb (Z.eqb (Z.b2z b)) codes
  | _ => false
  end.

(** ** Configuration *)

Module Config.

Definition DESIRED_DETECTOR_TYPES : list Z :=
  [2; 3; 7; 9; 15; 17; 18; 31; 39; 40; 48; 69; 71; 120; 177; 350; 353;
   582; 584; 599; 737; 924].

Definition UNDESIRED_TERMS : list string :=
  ["example"; "test"; "dummy"; "sample"].

(** The two settings the command line can change. *)
Record settings : Type := {
  MAX_WORKERS : Z;
  OUTPUT_DIR : string
}.

Definition defaults : settings :=
  {| MAX_WORKERS := 4; OUTPUT_DIR := "/app/output" |}.

Inductive action : Type := shadow | exist | cat.

Record check : Type := {
  name : string;
  pattern : string;
  action_type : action
}.

Definition SENSITIVE_FILES : list check :=
  [ {| name := "SHADOW"; pattern := "shadow"; action_type := shadow |};
    {| name := "SSH KEY"; pattern := "*id_[rd]sa"; action_type := exist |};
    {| name := "GIT CONFIG"; pattern := ".git/config"; action_type := cat |};
    {| name := "HTPASSWD"; pattern := ".htpasswd"; action_type := cat |};
    {| name := "NPMRC"; pattern := ".npmrc"; action_type := cat |};
    {| name := "DOCKERCFG"; pattern := ".dockercfg"; action_type := cat |};
    {| name := "PPK"; pattern := "*.ppk"; action_type := cat |};
    {| name := ".CREDENTIALS"; pattern := ".credentials"; action_type := cat |};
    {| name := "CREDENTIALS (AWS)"; pattern := "credentials";
       action_type := cat |};
    {| name := ".S3CFG"; pattern := ".s3cfg"; action_type := cat |};
    {| name := "WP-CONFIG.PHP"; pattern := "wp-config.php";
       action_type := cat |};
    {| name := ".ENV"; pattern := ".env"; action_type := cat |};
    {| name := ".GIT-CREDENTIALS"; pattern := ".git-credentials";
       action_type := cat |};
    {| name := ".BASH_HISTORY"; pattern := ".bash_history";
       action_type := cat |};
    {| name := ".NETRC"; pattern := ".netrc"; action_type := cat |};
    {| name := "FILEZILLA.XML"; pattern := "filezilla.xml";
       action_type := cat |};
    {| name := "RECENTSERVERS.XML"; pattern := "recentservers.xml";
       action_type := cat |};
    {| name := "CONFIG.JSON"; pattern := "config.json"; action_type := cat |};
    {| name := ".PGPASS"; pattern := ".pgpass"; action_type := cat |} ].

End Config.

(** ** Detector-A filter: [Klepto2.parse_trufflehog_results] *)

Module FindingFilter.
Import Text.

(** The first loop: every line that is not blank is parsed; a line that
    is not JSON ([json.JSONDecodeError], the [Ok None] of the parser) is
    dropped, any other exception of the parser ends the call.
    [json_loads] is the JSON parser. *)
Fixpoint all_data (json_loads : string -> result (option json))
    (lines : list string) : result (list json) :=
  match lines with
  | [] => Ok []
  | line :: rest =>
      if strip_nonempty line then
        match json_loads line with
        | Raise e => Raise e
        | Ok parsed =>
            match all_data json_loads rest with
            | Raise e => Raise e
            | Ok more =>
                Ok (match parsed with Some v => v :: more | None => more end)
            end
        end
      else all_data json_loads rest
  end.

(** [any(term in raw.lower() for term in Config.UNDESIRED_TERMS)] *)
Definition has_undesired_term (raw : string) : bool :=
  existsb (fun term => str_in term (str_lower raw)) Config.UNDESIRED_TERMS.

(** The projection appended to [filtered_data]. *)
Definition projection (obj : list (string * json)) (detector_type raw : json)
  : json :=
  JObj [ ("SourceMetadata", dict_get_or "SourceMetadata" JNull obj);
         ("DetectorName", dict_get_or "DetectorName" JNull obj);
         ("DetectorType", detector_type);
         ("Raw", raw) ].

(** One turn of the second loop: [Ok None] is a record passed over (not
    allow-listed, or [continue]), [Ok (Some p)] a record appended.
    [obj.get] needs a dict and [raw.lower()] a string. *)
Definition filter_one (obj : json) : result (option json) :=
  match obj with
  | JObj d =>
      let raw := dict_get_or "Raw" (JStr EmptyString) d in
      let detector_type := dict_get_or "DetectorType" JNull d in
      if in_int_list detector_type Config.DESIRED_DETECTOR_TYPES then
        if truthy raw then
          match raw with
          | JStr s =>
              if has_undesired_term s then Ok None
              else Ok (Some (projection d detector_type raw))
          | _ => Raise AttributeError
          end
        else Ok (Some (projection d detector_type raw))
      else Ok None
  | _ => Raise AttributeError
  end.

(** The second loop, in input order; an exception ends the call. *)
Fixpoint filtered_data (objs : list json) : result (list json) :=
  match objs with
  | [] => Ok []
  | obj :: rest =>
      match filter_one obj with
      | Raise e => Raise e
      | Ok kept =>
          match filtered_data rest with
          | Raise e => Raise e
          | Ok out =>
              Ok (match kept with Some p => p :: out | None => out end)
          end
      end
  end.

(** The content of the detector output file: missing, unreadable, or its
    lines. *)
Inductive text_file : Type :=
| Missing
| Unreadable
| Lines (ls : list string).

Definition parse_trufflehog_results
    (json_loads : string -> result (option json))
    (input_file : text_file) : result (list json) :=
  match input_file with
  | Missing => Ok []
  | Unreadable => Raise OSError
  | Lines ls =>
      match all_data json_loads ls with
      | Raise e => Raise e
      | Ok objs => filtered_data objs
      end
  end.

(** A detector-A record: a JSON object whose [Raw], when present, is a
    string. *)
Definition is_record (obj : json) : bool :=
  match obj with
  | JObj d =>
      match dict_get "Raw" d with
      | None | Some (JStr _) => true
      | Some _ => false
      end
  | _ => false
  end.

(** The raw secret text of a record ([""] when [Raw] is missing). *)
Definition raw_text (obj : json) : string :=
  match obj with
  | JObj d =>
      match dict_get "Raw" d with
      | Some (JStr s) => s
      | _ => EmptyString
      end
  | _ => EmptyString
  end.

(** The [DetectorType] field of a record. *)
Definition detector_type_of (obj : json) : json :=
  match obj with
  | JObj d => dict_get_or "DetectorType" JNull d
  | _ => JNull
  end.

(** The retention condition in the words of the specification: the
    detector type is allow-listed and the lower-cased raw text contains
    none of the denylist terms. *)
Definition retained (obj : json) : bool :=
  (in_int_list (detector_type_of obj) Config.DESIRED_DETECTOR_TYPES
   && forallb (fun term => negb (str_in term (str_lower (raw_text obj))))
        ["example"; "test"; "dummy"; "sample"])%bool.

(** What a retained record is projected to. *)
Definition project (obj : json) : json :=
  match obj with
  | JObj d =>
      projection d (dict_get_or "DetectorType" JNull d)
        (dict_get_or "Raw" (JStr EmptyString) d)
  | _ => JNull
  end.

End FindingFilter.

(** ** Collaborators, effects and the pipeline monad *)

(** What Docker Hub answers to the tag request of [get_best_tag]. *)
Inductive tags_response : Type :=
| RequestFailed
    (* [requests.get], [raise_for_status], [response.json] or the reading
       of the body raised *)
| NotFound
    (* status code 404 *)
| Results (names : list string).
    (* the [name] of every entry of the body's [results], in order *)

(** A JSON file as the program meets it: missing, not readable or not
    decodable by the parser other than by a [json.JSONDecodeError] (the
    exception), not JSON, or parsed. *)
Inductive json_file : Type :=
| NoFile
| ReadError (e : exn)
| BadJson
| Json (v : json).

(** ** SkopeoClient *)

Module SkopeoClient.

(** How [subprocess.run(cmd, check=True, ...)] ends: exit status 0 with
    the standard output, another exit status ([CalledProcessError],
    with whether the error output decodes as UTF-8), or the program
    could not be run. *)
Inductive command : Type :=
| Exit0 (stdout : string)
| ExitError (stderr_is_utf8 : bool)
| NotRun.

(** [inspect_image]: the handler of [CalledProcessError] decodes the
    error output for its log line; an output that is not JSON gives
    none; other exceptions leave the method. *)
Definition inspect_image (json_loads : string -> result (option json))
    (run : command) : result (option json) :=
  match run with
  | Exit0 stdout => json_loads stdout
  | ExitError true => Ok None
  | ExitError false => Raise UnicodeDecodeError
  | NotRun => Raise OSError
  end.

(** [pull_image] *)
Definition pull_image (run : command) : result bool :=
  match run with
  | Exit0 _ => Ok true
  | ExitError true => Ok false
  | ExitError false => Raise UnicodeDecodeError
  | NotRun => Raise OSError
  end.

End SkopeoClient.

(** The aggregate persisted per image ([final_result]). *)
Record ScanResult : Type := {
  image : string;
  scan_timestamp : string;
  image_metadata : json;
  file_findings : list string;
  trufflehog_findings : list json;
  gitleaks_findings : json
}.

(** The answers of the collaborators. *)
Record World : Type := {
  (* HubClient.search: the [repo_name]s of the answer, [None] when the
     request raises *)
  hub_search : string -> option (list string);
  (* the tag request for a repository *)
  hub_tags : string -> tags_response;
  (* how skopeo inspect ends for an image *)
  inspect_command : string -> SkopeoClient.command;
  (* how skopeo copy of an image into a directory ends *)
  copy_command : string -> string -> SkopeoClient.command;
  (* tempfile.TemporaryDirectory() of the invocation for an image *)
  mkdtemp : string -> string;
  (* the file system as the stages observe it *)
  path_exists : string -> bool;
  listdir : string -> list string;
  read_json : string -> json_file;
  read_text : string -> option string;
  read_lines : string -> FindingFilter.text_file;
  walk : string -> list (string * list string * list string);
  (* json.loads: the parsed value, [Ok None] for a
     [json.JSONDecodeError], [Raise] for any other exception *)
  json_loads : string -> result (option json);
  (* date -u *)
  date : string;
  (* whether the artifact at a path can be opened and written *)
  write_ok : string -> bool;
  (* for a write that fails: whether the file was opened, and so
     truncated, before the failure, and the exception raised *)
  write_truncates : string -> bool;
  write_error : string -> exn
}.

(** What [SkopeoClient.inspect_image] and [SkopeoClient.pull_image] do
    in a world. *)
Definition skopeo_inspect (w : World) (image_name : string)
  : result (option json) :=
  SkopeoClient.inspect_image (json_loads w) (inspect_command w image_name).

Definition skopeo_pull (w : World) (image_name dest_path : string)
  : result bool :=
  SkopeoClient.pull_image (copy_command w image_name dest_path).

(** Calls to collaborators and other observable effects, in order. *)
Inductive event : Type :=
| HubSearch (term : string)
| HubTags (repo : string)
| SkopeoInspect (image_name : string)
| SkopeoPull (image_name dest_path : string) (ok : bool)
| Tar (filepath extract_root : string)
| FileScan (directory : string)
| Trufflehog (directory output_file : string)
| Gitleaks (directory output_file : string)
| WriteArtifact (output_file : string) (doc : ScanResult)
| PartialArtifact (output_file : string)
| ReleaseTemp (temp_dir : string)
| Submit (image_name : string)
| LogError (image_name : string) (e : exn).

(** A computation: the events it performs and how it ends. *)
Definition M (A : Type) : Type := (list event * result A)%type.

Definition ret {A} (a : A) : M A := ([], Ok a).

Definition raise {A} (e : exn) : M A := ([], Raise e).

Definition emit (ev : event) : M unit := ([ev], Ok tt).

Definition bind {A B} (m : M A) (k : A -> M B) : M B :=
  match m with
  | (evs, Ok a) => let '(evs', r) := k a in (evs ++ evs', r)
  | (evs, Raise e) => (evs, Raise e)
  end.

(** [with tempfile.TemporaryDirectory() as temp_dir: body]: the
    directory is released however the body ends. *)
Definition with_temp {A} (temp_dir : string) (body : M A) : M A :=
  let '(evs, r) := body in (evs ++ [ReleaseTemp temp_dir], r).

Declare Scope pipeline_scope.
Delimit Scope pipeline_scope with pipeline.
Notation "x <- m ;; k" := (bind m (fun x => k))
  (at level 100, m at next level, right associativity) : pipeline_scope.
Notation "m ;;; k" := (bind m (fun _ => k))
  (at level 100, right associativity) : pipeline_scope.
Local Open Scope pipeline_scope.

(** The output directory: artifact path to document.  A later write to
    the same path replaces the earlier one; a write that fails after the
    file was opened leaves no document at the path. *)
Fixpoint written (evs : list event) (dir : gmap string ScanResult)
  : gmap string ScanResult :=
  match evs with
  | [] => dir
  | WriteArtifact output_file doc :: r => written r (<[output_file := doc]> dir)
  | PartialArtifact output_file :: r => written r (delete output_file dir)
  | _ :: r => written r dir
  end.

(** ** HubClient *)

Module HubClient.
Import Text.

Definition search (w : World) (term : string) : M (list string) :=
  emit (HubSearch term) ;;;
  ret (match hub_search w term with
       | Some found => found
       | None => []
       end).

Definition get_best_tag (w : World) (repo_name : string) : M (option string) :=
  let repo_name :=
    if negb (str_in "/" repo_name) then "library/" +:+ repo_name
    else repo_name in
  emit (HubTags repo_name) ;;;
  ret (match hub_tags w repo_name with
       | RequestFailed => None
       | NotFound => None
       | Results results =>
           match results with
           | [] => None
           | first :: _ =>
               if existsb (String.eqb "latest") results then Some "latest"
               else Some first
           end
       end).

End HubClient.

(** Perform the events of a list, in order. *)
Definition emit_all (evs : list event) : M unit := (evs, Ok tt).

(** ** LayerExtractor: [Klepto2.extract_image] *)

Module LayerExtractor.
Import Text.

(** [for layer in layers]: what iterating a JSON value yields; a value
    that is not iterable raises. *)
Fixpoint chars_of (s : string) : list json :=
  match s with
  | EmptyString => []
  | String c r => JStr (String c EmptyString) :: chars_of r
  end.

Definition py_iter (v : json) : result (list json) :=
  match v with
  | JArr l => Ok l
  | JObj d => Ok (map (fun kv => JStr (fst kv)) d)
  | JStr s => Ok (chars_of s)
  | _ => Raise TypeError
  end.

(** The loop over the declared layers.  [files] is [files_to_extract] so
    far; an exception ([layer.get] on a value that is no dict,
    [digest.replace] on a value that is no string) ends the loop and
    leaves the list as it is. *)
Fixpoint collect_layers (w : World) (image_dir : string) (layers : list json)
    (files : list string) : list string :=
  match layers with
  | [] => files
  | JObj layer :: rest =>
      match dict_get_or "digest" (JStr EmptyString) layer with
      | JStr digest =>
          let clean_digest := str_replace "sha256:" EmptyString digest in
          if path_exists w (path_join image_dir clean_digest)
          then collect_layers w image_dir rest (files ++ [clean_digest])
          else if path_exists w (path_join image_dir digest)
               then collect_layers w image_dir rest (files ++ [digest])
               else collect_layers w image_dir rest files
      | _ => files
      end
  | _ :: _ => files
  end.

(** [files_to_extract] when the fallback test is reached. *)
Definition manifest_files (w : World) (image_dir : string) : list string :=
  let manifest_path := path_join image_dir "manifest.json" in
  if path_exists w manifest_path then
    match read_json w manifest_path with
    | Json (JObj manifest) =>
        match py_iter (dict_get_or "layers" (JArr []) manifest) with
        | Ok layers => collect_layers w image_dir layers []
        | Raise _ => []
        end
    | _ => []
    end
  else [].

(** [f not in ["manifest.json", "version"]] *)
Definition not_metadata (f : string) : bool :=
  negb (existsb (String.eqb f) ["manifest.json"; "version"]).

Definition files_to_extract (w : World) (image_dir : string) : list string :=
  match manifest_files w image_dir with
  | [] => List.filter not_metadata (listdir w image_dir)
  | fs => fs
  end.

(** One [tar -xf] per file; a failing [tar] is passed over. *)
Definition extract_image (w : World) (image_dir extract_root : string)
  : M unit :=
  emit_all
    (map (fun filename => Tar (path_join image_dir filename) extract_root)
       (files_to_extract w image_dir)).

End LayerExtractor.

(** ** FilePatternScanner: [FileScanner] *)

Module FileScanner.
Import Text.

(** *** [fnmatch.fnmatch] *)

Inductive token : Type :=
| Star
| AnyChar
| Lit (c : ascii)
| Class (negated : bool) (members : list ascii).

(** Whether the bracket opened just before [p] is closed: a leading [!]
    and then a leading closing bracket do not close it. *)
Definition bracket_closes (p : string) : bool :=
  let p1 := match p with String "!" r => r | _ => p end in
  let p2 := match p1 with String "]" r => r | _ => p1 end in
  char_in "]" p2.

Inductive lexer_state : Type :=
| Outside
| AfterBracket
| AfterBang
| Body (negated : bool) (members : list ascii).

(** The pattern as a list of tokens; a bracket that is never closed is a
    literal character. *)
Fixpoint tokenize (st : lexer_state) (p : string) : list token :=
  match p with
  | EmptyString => []
  | String c r =>
      match st with
      | Outside =>
          if Ascii.eqb c "*" then Star :: tokenize Outside r
          else if Ascii.eqb c "?" then AnyChar :: tokenize Outside r
          else if (Ascii.eqb c "[" && bracket_closes r)%bool
               then tokenize AfterBracket r
               else Lit c :: tokenize Outside r
      | AfterBracket =>
          if Ascii.eqb c "!" then tokenize AfterBang r
          else tokenize (Body false [c]) r
      | AfterBang => tokenize (Body true [c]) r
      | Body negated members =>
          if Ascii.eqb c "]"
          then Class negated members :: tokenize Outside r
          else tokenize (Body negated (members ++ [c])) r
      end
  end.

(** Membership in a bracket expression: [a-b] between two members is a
    range. *)
Fixpoint class_mem (c : ascii) (members : list ascii) : bool :=
  match members with
  | [] => false
  | a :: r =>
      match r with
      | dash :: b :: r' =>
          if Ascii.eqb dash "-"
          then (in_range (ord a) (ord b) c || class_mem c r')%bool
          else (Ascii.eqb c a || class_mem c r)%bool
      | _ => (Ascii.eqb c a || class_mem c r)%bool
      end
  end.

(** The whole of [s] matches the tokens. *)
Fixpoint glob (ts : list token) (s : string) : bool :=
  match ts with
  | [] => match s with EmptyString => true | _ => false end
  | Star :: ts' =>
      (fix star (s : string) : bool :=
         (glob ts' s
          || match s with
             | EmptyString => false
             | String _ r => star r
             end)%bool) s
  | AnyChar :: ts' =>
      match s with
      | String _ r => glob ts' r
      | EmptyString => false
      end
  | Lit c :: ts' =>
      match s with
      | String a r => (Ascii.eqb a c && glob ts' r)%bool
      | EmptyString => false
      end
  | Class negated members :: ts' =>
      match s with
      | String a r => (xorb negated (class_mem a members) && glob ts' r)%bool
      | EmptyString => false
      end
  end.

Definition fnmatch (name pat : string) : bool :=
  glob (tokenize Outside pat) name.

(** *** The scanner *)

Definition _match_pattern (filename pattern : string) : bool :=
  fnmatch (str_lower filename) (str_lower pattern).

Definition newline : string := String (ascii_of_N 10) EmptyString.

(** The findings [_check_shadow] adds. *)
Definition _check_shadow (w : World) (filepath : string) : list string :=
  match read_text w filepath with
  | Some content =>
      if str_in "$" content then
        ("Found SHADOW file: " +:+ filepath)
          :: map (fun line => "Shadow content: " +:+ line)
               (List.filter (fun line => str_in "$" line)
                  (str_splitlines content))
      else []
  | None => []
  end.

(** The findings [_cat_file] adds. *)
Definition _cat_file (w : World) (filepath : string) : list string :=
  ("Found sensitive file: " +:+ filepath)
    :: match read_text w filepath with
       | Some content =>
           ["Content of " +:+ filepath +:+ ":" +:+ newline +:+ content]
       | None => []
       end.

(** The findings one rule adds over the walk of [directory]. *)
Definition scan_check (w : World) (directory : string) (check : Config.check)
  : list string :=
  let title := Config.name check in
  let pattern := Config.pattern check in
  let action_type := Config.action_type check in
  if String.eqb pattern ".git/config" then
    flat_map
      (fun '(root, dirs, files) =>
         if existsb (String.eqb ".git") dirs then
           let git_dir := path_join root ".git" in
           let config_file := path_join git_dir "config" in
           if path_exists w config_file then
             ("Found GIT CONFIG: " +:+ git_dir) :: _cat_file w config_file
           else []
         else [])
      (walk w directory)
  else
    flat_map
      (fun '(root, dirs, files) =>
         flat_map
           (fun filename =>
              if _match_pattern filename pattern then
                let filepath := path_join root filename in
                match action_type with
                | Config.shadow => _check_shadow w filepath
                | Config.cat => _cat_file w filepath
                | Config.exist =>
                    ["Found " +:+ title +:+ ": " +:+ filepath]
                end
              else [])
           files)
      (walk w directory).

(** [FileScanner().scan(directory, repo_name)]: the findings of the
    rules, in the order of the rules. *)
Definition scan (w : World) (directory repo_name : string) : list string :=
  flat_map (scan_check w directory) Config.SENSITIVE_FILES.

End FileScanner.

(** ** ImagePipeline and Scheduler: [Klepto2] *)

Module Klepto2.
Import Text.

Definition lift {A} (r : result A) : M A := ([], r).

(** [len(v)] *)
Definition py_len (v : json) : result Z :=
  match v with
  | JArr l => Ok (Z.of_nat (length l))
  | JObj d => Ok (Z.of_nat (length d))
  | JStr s => Ok (Z.of_nat (String.length s))
  | _ => Raise TypeError
  end.

(** [image_info] from what [inspect_image] does: an exception of
    [inspect_image] leaves [process_image]. *)
Definition image_info_of (metadata : result (option json)) : result json :=
  match metadata with
  | Raise e => Raise e
  | Ok None => Ok (JObj [])
  | Ok (Some m) =>
      if truthy m then
        match m with
        | JObj d =>
            let created := dict_get_or "Created" (JStr "Unknown") d in
            let architecture :=
              dict_get_or "Architecture" (JStr "Unknown") d in
            let os_name := dict_get_or "Os" (JStr "Unknown") d in
            match py_len (dict_get_or "Layers" (JArr []) d) with
            | Raise e => Raise e
            | Ok layers_count =>
                let env_vars := dict_get_or "Env" (JArr []) d in
                let image_info :=
                  JObj [ ("Created", created);
                         ("Architecture", architecture);
                         ("Os", os_name);
                         ("LayersCount", JNum layers_count);
                         ("Env", env_vars);
                         ("Labels", dict_get_or "Labels" (JObj []) d) ] in
                if truthy env_vars then
                  match py_len env_vars with
                  | Raise e => Raise e
                  | Ok _ => Ok image_info
                  end
                else Ok image_info
            end
        | _ => Raise AttributeError
        end
      else Ok (JObj [])
  end.

(** Tag resolution, the first statement of [process_image]. *)
Definition resolve_tag (w : World) (image_name : string) : M string :=
  if negb (str_in ":" image_name) then
    let is_custom_registry :=
      ((1 <? Z.of_nat (length (str_split "/" image_name)))
       && str_in "." (hd EmptyString (str_split "/" image_name)))%bool in
    if is_custom_registry then ret (image_name +:+ ":latest")
    else
      tag <- HubClient.get_best_tag w image_name ;;
      match tag with
      | Some t =>
          if truthy (JStr t) then ret (image_name +:+ ":" +:+ t)
          else ret (image_name +:+ ":latest")
      | None => ret (image_name +:+ ":latest")
      end
  else ret image_name.

Definition safe_name (image_name : string) : string :=
  str_replace ":" "_" (str_replace "/" "_" image_name).

Definition output_file (cfg : Config.settings) (image_name : string)
  : string :=
  path_join (Config.OUTPUT_DIR cfg)
    ("results_" +:+ safe_name image_name +:+ ".json").

(** The call of [SkopeoClient.pull_image]: the event records the
    attempt and whether it succeeded; an exception of the method is
    passed on. *)
Definition pull_image (w : World) (image_name dest_path : string) : M bool :=
  match skopeo_pull w image_name dest_path with
  | Ok ok => emit (SkopeoPull image_name dest_path ok) ;;; ret ok
  | Raise e => emit (SkopeoPull image_name dest_path false) ;;; raise e
  end.

(** The gitleaks report: only a decoding error is passed over. *)
Definition load_gitleaks (w : World) (gl_output_tmp : string) : M json :=
  if path_exists w gl_output_tmp then
    match read_json w gl_output_tmp with
    | Json v => ret v
    | BadJson => ret (JArr [])
    | NoFile => raise OSError
    | ReadError e => raise e
    end
  else ret (JArr []).

(** [open(output_file, "w")] and [json.dump]: opening truncates the
    file, so a failure after it leaves the file without a document. *)
Definition write_result (w : World) (path : string) (doc : ScanResult)
  : M unit :=
  if write_ok w path then emit (WriteArtifact path doc)
  else if write_truncates w path
       then emit (PartialArtifact path) ;;; raise (write_error w path)
       else raise (write_error w path).

(** The stages after a successful pull, up to [final_result]. *)
Definition gather (w : World)
    (image_name temp_dir image_dir extract_dir : string) (image_info : json)
  : M ScanResult :=
  LayerExtractor.extract_image w image_dir extract_dir ;;;
  emit (FileScan extract_dir) ;;;
  let file_findings := FileScanner.scan w extract_dir image_name in
  let th_output_tmp := path_join temp_dir "trufflehog.json" in
  emit (Trufflehog extract_dir th_output_tmp) ;;;
  trufflehog_findings <-
    lift (FindingFilter.parse_trufflehog_results (json_loads w)
            (read_lines w th_output_tmp)) ;;
  let gl_output_tmp := path_join temp_dir "gitleaks.json" in
  emit (Gitleaks extract_dir gl_output_tmp) ;;;
  gitleaks_findings <- load_gitleaks w gl_output_tmp ;;
  ret {| image := image_name;
         scan_timestamp := date w;
         image_metadata := image_info;
         file_findings := file_findings;
         trufflehog_findings := trufflehog_findings;
         gitleaks_findings := gitleaks_findings |}.

(** The persist stage. *)
Definition persist (cfg : Config.settings) (w : World) (image_name : string)
    (final_result : ScanResult) : M (option string) :=
  write_result w (output_file cfg image_name) final_result ;;;
  ret (Some (output_file cfg image_name)).

Definition process_image (cfg : Config.settings) (w : World)
    (image_name : string) : M (option string) :=
  image_name <- resolve_tag w image_name ;;
  emit (SkopeoInspect image_name) ;;;
  image_info <- lift (image_info_of (skopeo_inspect w image_name)) ;;
  let temp_dir := mkdtemp w image_name in
  with_temp temp_dir
    (let image_dir := path_join temp_dir "image_data" in
     let extract_dir := path_join temp_dir "extracted" in
     pulled <- pull_image w image_name image_dir ;;
     if negb pulled then ret None
     else
       final_result <-
         gather w image_name temp_dir image_dir extract_dir image_info ;;
       persist cfg w image_name final_result).

(** [is_image] of mode [mixed]. *)
Definition is_image (term : string) : bool :=
  (str_in ":" term
   || ((1 <? Z.of_nat (length (str_split "/" term)))
       && str_in "." (hd EmptyString (str_split "/" term))))%bool.

Fixpoint search_all (w : World) (inputs : list string) : M (list string) :=
  match inputs with
  | [] => ret []
  | term :: rest =>
      found <- HubClient.search w term ;;
      more <- search_all w rest ;;
      ret (found ++ more)
  end.

Fixpoint resolve_mixed (w : World) (inputs : list string) : M (list string) :=
  match inputs with
  | [] => ret []
  | term :: rest =>
      found <- (if is_image term then ret [term] else HubClient.search w term) ;;
      more <- resolve_mixed w rest ;;
      ret (found ++ more)
  end.

(** [image_names] before deduplication. *)
Definition resolve_inputs (w : World) (inputs : list string) (mode : string)
  : M (list string) :=
  if String.eqb mode "search" then search_all w inputs
  else if String.eqb mode "image" then ret inputs
  else if String.eqb mode "mixed" then resolve_mixed w inputs
  else ret [].

(** [list(set(image_names))] *)
Definition unique (image_names : list string) : list string :=
  elements (list_to_set image_names : gset string).

(** One submitted task with the handler around [future.result()]. *)
Definition task (cfg : Config.settings) (w : World) (image_name : string)
  : M unit :=
  match process_image cfg w image_name with
  | (evs, Ok _) => (evs, Ok tt)
  | (evs, Raise e) => (evs ++ [LogError image_name e], Ok tt)
  end.

Fixpoint run_tasks (cfg : Config.settings) (w : World)
    (image_names : list string) : M unit :=
  match image_names with
  | [] => ret tt
  | img :: rest => task cfg w img ;;; run_tasks cfg w rest
  end.

Definition run (cfg : Config.settings) (w : World) (inputs : list string)
    (mode : string) : M unit :=
  image_names <- resolve_inputs w inputs mode ;;
  let image_names := unique image_names in
  match image_names with
  | [] => ret tt
  | _ =>
      (* ThreadPoolExecutor(max_workers=Config.MAX_WORKERS) *)
      if Config.MAX_WORKERS cfg <=? 0 then raise ValueError
      else
        emit_all (map Submit image_names) ;;;
        run_tasks cfg w image_names
  end.

End Klepto2.

(** ** Sample data *)

Module Examples.

Definition record_real : json :=
  JObj [("DetectorType", JNum 2); ("Raw", JStr "AKIA_real_key_value")].

Definition record_placeholder : json :=
  JObj [("DetectorType", JNum 2); ("Raw", JStr "test-AKIA-example")].

Definition record_unknown : json :=
  JObj [("DetectorType", JNum 9999); ("Raw", JStr "AKIA_real_key_value")].

(** A world in which nothing is found and every call succeeds. *)
Definition quiet : World :=
  {| hub_search := fun _ => Some [];
     hub_tags := fun _ => NotFound;
     inspect_command := fun _ => SkopeoClient.ExitError true;
     copy_command := fun _ _ => SkopeoClient.Exit0 EmptyString;
     mkdtemp := fun _ => "/tmp/tmpk2";
     path_exists := fun _ => false;
     listdir := fun _ => [];
     read_json := fun _ => NoFile;
     read_text := fun _ => None;
     read_lines := fun _ => FindingFilter.Missing;
     walk := fun _ => [];
     json_loads := fun _ => Ok None;
     date := "2024-01-01T00:00:00Z";
     write_ok := fun _ => true;
     write_truncates := fun _ => false;
     write_error := fun _ => OSError |}.

(** [quiet] with another answer to every tag request. *)
Definition with_tags (answer : tags_response) : World :=
  {| hub_search := hub_search quiet;
     hub_tags := fun _ => answer;
     inspect_command := inspect_command quiet;
     copy_command := copy_command quiet;
     mkdtemp := mkdtemp quiet;
     path_exists := path_exists quiet;
     listdir := listdir quiet;
     read_json := read_json quiet;
     read_text := read_text quiet;
     read_lines := read_lines quiet;
     walk := walk quiet;
     json_loads := json_loads quiet;
     date := date quiet;
     write_ok := write_ok quiet;
     write_truncates := write_truncates quiet;
     write_error := write_error quiet |}.

(** A pulled image without a manifest: two blobs and the version file. *)
Definition pulled_without_manifest : World :=
  {| hub_search := hub_search quiet;
     hub_tags := hub_tags quiet;
     inspect_command := inspect_command quiet;
     copy_command := copy_command quiet;
     mkdtemp := mkdtemp quiet;
     path_exists := path_exists quiet;
     listdir := fun _ => ["4f4fb700ef54"; "version"; "a3ed95caeb02"];
     read_json := read_json quiet;
     read_text := read_text quiet;
     read_lines := read_lines quiet;
     walk := walk quiet;
     json_loads := json_loads quiet;
     date := date quiet;
     write_ok := write_ok quiet;
     write_truncates := write_truncates quiet;
     write_error := write_error quiet |}.

(** An extracted tree [/x] with one file, [/x/etc/<name>]. *)
Definition with_file_content (name content : string) : World :=
  {| hub_search := hub_search quiet;
     hub_tags := hub_tags quiet;
     inspect_command := inspect_command quiet;
     copy_command := copy_command quiet;
     mkdtemp := mkdtemp quiet;
     path_exists := path_exists quiet;
     listdir := listdir quiet;
     read_json := read_json quiet;
     read_text := fun _ => Some content;
     read_lines := read_lines quiet;
     walk := fun _ => [("/x", ["etc"], []); ("/x/etc", [], [name])];
     json_loads := json_loads quiet;
     date := date quiet;
     write_ok := write_ok quiet;
     write_truncates := write_truncates quiet;
     write_error := write_error quiet |}.

Definition shadow_content : string :=
  "daemon:*:19000:0:99999:7:::" +:+ FileScanner.newline
  +:+ "root:$6$abc:19000:0:99999:7:::" +:+ FileScanner.newline.

Definition with_file (name : string) : World :=
  with_file_content name shadow_content.


(** [quiet] where the pull of [broken:1] fails. *)
Definition one_broken : World :=
  {| hub_search := hub_search quiet;
     hub_tags := hub_tags quiet;
     inspect_command := inspect_command quiet;
     copy_command := fun image_name _ =>
       if String.eqb image_name "broken:1" then SkopeoClient.ExitError true
       else SkopeoClient.Exit0 EmptyString;
     mkdtemp := mkdtemp quiet;
     path_exists := path_exists quiet;
     listdir := listdir quiet;
     read_json := read_json quiet;
     read_text := read_text quiet;
     read_lines := read_lines quiet;
     walk := walk quiet;
     json_loads := json_loads quiet;
     date := date quiet;
     write_ok := write_ok quiet;
     write_truncates := write_truncates quiet;
     write_error := write_error quiet |}.

(** The pulled image, the detector outputs and the Docker Hub answer of
    a run over [nginx]. *)
Definition nginx_world : World :=
  {| hub_search := hub_search quiet;
     hub_tags := fun _ => Results ["1.25"; "latest"];
     inspect_command := inspect_command quiet;
     copy_command := copy_command quiet;
     mkdtemp := mkdtemp quiet;
     path_exists := fun p =>
       existsb (String.eqb p)
         ["/tmp/tmpk2/image_data/manifest.json";
          "/tmp/tmpk2/image_data/aaa";
          "/tmp/tmpk2/image_data/bbb";
          "/tmp/tmpk2/gitleaks.json"];
     listdir := fun _ => ["manifest.json"; "version"; "aaa"; "bbb"];
     read_json := fun p =>
       if String.eqb p "/tmp/tmpk2/image_data/manifest.json" then
         Json (JObj [("layers",
                      JArr [JObj [("digest", JStr "sha256:aaa")];
                            JObj [("digest", JStr "sha256:bbb")]])])
       else Json (JArr []);
     read_text := read_text quiet;
     read_lines := fun _ => FindingFilter.Lines ["real"; " "; "placeholder"];
     walk := walk quiet;
     json_loads := fun line =>
       if String.eqb line "real" then Ok (Some record_real)
       else if String.eqb line "placeholder" then Ok (Some record_placeholder)
       else Ok None;
     date := date quiet;
     write_ok := write_ok quiet;
     write_truncates := write_truncates quiet;
     write_error := write_error quiet |}.

End Examples.

(** ** Vocabulary of the statements *)

(** The retention condition in the words of the specification, without
    the text operations of the program.  A detector type is allow-listed
    when it is one of the 22 integer codes. *)
Definition allow_listed (v : json) : Prop :=
  exists z : Z,
    v = JNum z
    /\ In z [2; 3; 7; 9; 15; 17; 18; 31; 39; 40; 48; 69; 71; 120; 177; 350;
             353; 582; 584; 599; 737; 924].

(** A character reads as the lower-case letter [t] when it is [t] or
    the capital of [t]. *)
Definition same_letter (c t : ascii) : Prop :=
  c = t \/ (N_of_ascii c + 32 = N_of_ascii t)%N.

Fixpoint same_word (word term : string) : Prop :=
  match word, term with
  | EmptyString, EmptyString => True
  | String c word', String t term' => same_letter c t /\ same_word word' term'
  | _, _ => False
  end.

(** [term] occurs in [raw], whatever the case of the letters of [raw]. *)
Definition contains_ignoring_case (term raw : string) : Prop :=
  exists before word after : string,
    raw = before +:+ word +:+ after /\ same_word word term.

(** The raw text holds one of the placeholder terms. *)
Definition placeholder_text (raw : string) : Prop :=
  exists term : string,
    In term ["example"; "test"; "dummy"; "sample"]
    /\ contains_ignoring_case term raw.

(** A lower-case ASCII letter. *)
Definition lower_letter (t : ascii) : bool :=
  (N.leb 97 (N_of_ascii t) && N.leb (N_of_ascii t) 122)%bool.

(** The length of a value that has one: a text, an array or an
    object. *)
Definition json_length (v : json) : option Z :=
  match v with
  | JStr s => Some (Z.of_nat (String.length s))
  | JArr l => Some (Z.of_nat (length l))
  | JObj d => Some (Z.of_nat (length d))
  | JNull | JBool _ | JNum _ => None
  end.

(** The repository the tag request is made for. *)
Definition hub_repo (image_name : string) : string :=
  if Text.str_in "/" image_name then image_name
  else "library/" +:+ image_name.

(** An identifier with more than one path segment whose first segment
    holds a dot. *)
Definition registry_qualified (image_name : string) : Prop :=
  (1 < length (Text.str_split "/" image_name))%nat
  /\ Text.str_in "." (hd EmptyString (Text.str_split "/" image_name)) = true.

(** The names mode [mixed] collects from one input. *)
Definition mixed_names (w : World) (term : string) : list string :=
  if Klepto2.is_image term then [term]
  else match hub_search w term with Some found => found | None => [] end.

(** [str_map f s]: [f] applied to every character of [s]. *)
Fixpoint str_map (f : ascii -> ascii) (s : string) : string :=
  match s with
  | EmptyString => EmptyString
  | String c r => String (f c) (str_map f r)
  end.

(** The three characters an artifact name cannot tell apart. *)
Definition is_separator (c : ascii) : bool :=
  (Ascii.eqb c "/" || Ascii.eqb c ":" || Ascii.eqb c "_")%bool.

Definition underscore (c : ascii) : ascii :=
  if is_separator c then "_"%char else c.

(** Two references of the same length that differ only where both hold
    one of [/], [:] and [_]. *)
Fixpoint same_up_to_separators (a b : string) : Prop :=
  match a, b with
  | EmptyString, EmptyString => True
  | String x a', String y b' =>
      (x = y \/ (is_separator x = true /\ is_separator y = true))
      /\ same_up_to_separators a' b'
  | _, _ => False
  end.

(** None of the declared layers has a candidate file on disk. *)
Definition no_layer_on_disk (w : World) (image_dir : string)
    (layers : list json) : Prop :=
  forall layer, In layer layers ->
    exists d digest,
      layer = JObj d
      /\ dict_get_or "digest" (JStr EmptyString) d = JStr digest
      /\ path_exists w
           (Text.path_join image_dir
              (Text.str_replace "sha256:" EmptyString digest)) = false
      /\ path_exists w (Text.path_join image_dir digest) = false.

(** The reference [process_image] works on once the tag is resolved. *)
Definition resolved (w : World) (image_name : string) : string :=
  match snd (Klepto2.resolve_tag w image_name) with
  | Ok ref => ref
  | Raise _ => image_name
  end.

(** Events of the stages after the pull. *)
Definition later_stage (ev : event) : bool :=
  match ev with
  | Tar _ _ | FileScan _ | Trufflehog _ _ | Gitleaks _ _
  | WriteArtifact _ _ | PartialArtifact _ => true
  | _ => false
  end.

Definition is_write (ev : event) : bool :=
  match ev with
  | WriteArtifact _ _ | PartialArtifact _ => true
  | _ => false
  end.

(** The digest a manifest layer declares, when the layer is an object
    whose [digest] is a string (a missing [digest] reads as [""]). *)
Definition digest_of (layer : json) : option string :=
  match layer with
  | JObj d =>
      match dict_get_or "digest" (JStr EmptyString) d with
      | JStr digest => Some digest
      | _ => None
      end
  | _ => None
  end.

(** The file extracted for a digest: the name without the [sha256:]
    prefix when it is on disk, else the digest itself when it is, else
    none. *)
Definition candidate (w : World) (image_dir digest : string) : list string :=
  if path_exists w
       (Text.path_join image_dir
          (Text.str_replace "sha256:" EmptyString digest))
  then [Text.str_replace "sha256:" EmptyString digest]
  else if path_exists w (Text.path_join image_dir digest) then [digest]
       else [].

(** A pattern without wildcard or bracket. *)
Fixpoint plain (p : string) : bool :=
  match p with
  | EmptyString => true
  | String c r =>
      (negb (Ascii.eqb c "*") && negb (Ascii.eqb c "?")
       && negb (Ascii.eqb c "[") && plain r)%bool
  end.




(** ** More sample data *)

Module Samples.

(** An extracted tree whose root holds a [.git] directory with a
    [config] file. *)
Definition git_tree : World :=
  {| hub_search := hub_search Examples.quiet;
     hub_tags := hub_tags Examples.quiet;
     inspect_command := inspect_command Examples.quiet;
     copy_command := copy_command Examples.quiet;
     mkdtemp := mkdtemp Examples.quiet;
     path_exists := fun p => String.eqb p "/x/app/.git/config";
     listdir := listdir Examples.quiet;
     read_json := read_json Examples.quiet;
     read_text := fun _ => Some "[remote]";
     read_lines := read_lines Examples.quiet;
     walk := fun _ => [("/x", ["app"], []);
                       ("/x/app", [".git"; "src"], ["README"])];
     json_loads := json_loads Examples.quiet;
     date := date Examples.quiet;
     write_ok := write_ok Examples.quiet;
     write_truncates := write_truncates Examples.quiet;
     write_error := write_error Examples.quiet |}.

(** An inspection whose output parses to a document with a null
    [Layers]. *)
Definition null_layers : World :=
  {| hub_search := hub_search Examples.quiet;
     hub_tags := hub_tags Examples.quiet;
     inspect_command := fun _ => SkopeoClient.Exit0 "inspect output";
     copy_command := copy_command Examples.quiet;
     mkdtemp := mkdtemp Examples.quiet;
     path_exists := path_exists Examples.quiet;
     listdir := listdir Examples.quiet;
     read_json := read_json Examples.quiet;
     read_text := read_text Examples.quiet;
     read_lines := read_lines Examples.quiet;
     walk := walk Examples.quiet;
     json_loads := fun text =>
       if String.eqb text "inspect output"
       then Ok (Some (JObj [("Layers", JNull)]))
       else Ok None;
     date := date Examples.quiet;
     write_ok := write_ok Examples.quiet;
     write_truncates := write_truncates Examples.quiet;
     write_error := write_error Examples.quiet |}.

(** A registry search that fails for every term but [nginx]. *)
Definition one_hit : World :=
  {| hub_search := fun term =>
       if String.eqb term "nginx" then Some ["nginx"; "bitnami/nginx"]
       else None;
     hub_tags := hub_tags Examples.quiet;
     inspect_command := inspect_command Examples.quiet;
     copy_command := copy_command Examples.quiet;
     mkdtemp := mkdtemp Examples.quiet;
     path_exists := path_exists Examples.quiet;
     listdir := listdir Examples.quiet;
     read_json := read_json Examples.quiet;
     read_text := read_text Examples.quiet;
     read_lines := read_lines Examples.quiet;
     walk := walk Examples.quiet;
     json_loads := json_loads Examples.quiet;
     date := date Examples.quiet;
     write_ok := write_ok Examples.quiet;
     write_truncates := write_truncates Examples.quiet;
     write_error := write_error Examples.quiet |}.

(** Two search terms whose results share the name [nginx]; every pull
    fails. *)
Definition shared_hit : World :=
  {| hub_search := fun term =>
       if String.eqb term "web" then Some ["nginx"; "httpd"]
       else if String.eqb term "proxy" then Some ["nginx"]
       else None;
     hub_tags := hub_tags Examples.quiet;
     inspect_command := inspect_command Examples.quiet;
     copy_command := fun _ _ => SkopeoClient.ExitError true;
     mkdtemp := mkdtemp Examples.quiet;
     path_exists := path_exists Examples.quiet;
     listdir := listdir Examples.quiet;
     read_json := read_json Examples.quiet;
     read_text := read_text Examples.quiet;
     read_lines := read_lines Examples.quiet;
     walk := walk Examples.quiet;
     json_loads := json_loads Examples.quiet;
     date := date Examples.quiet;
     write_ok := write_ok Examples.quiet;
     write_truncates := write_truncates Examples.quiet;
     write_error := write_error Examples.quiet |}.

(** A copy command that fails for every image with an error output that
    is not UTF-8. *)
Definition garbled_pull : World :=
  {| hub_search := hub_search Examples.quiet;
     hub_tags := hub_tags Examples.quiet;
     inspect_command := inspect_command Examples.quiet;
     copy_command := fun _ _ => SkopeoClient.ExitError false;
     mkdtemp := mkdtemp Examples.quiet;
     path_exists := path_exists Examples.quiet;
     listdir := listdir Examples.quiet;
     read_json := read_json Examples.quiet;
     read_text := read_text Examples.quiet;
     read_lines := read_lines Examples.quiet;
     walk := walk Examples.quiet;
     json_loads := json_loads Examples.quiet;
     date := date Examples.quiet;
     write_ok := write_ok Examples.quiet;
     write_truncates := write_truncates Examples.quiet;
     write_error := write_error Examples.quiet |}.



(** A parser that reads [real] as a record, rejects [junk] as no JSON
    and runs out of stack on [deep]. *)
Definition sample_loads (line : string) : result (option json) :=
  if String.eqb line "real" then Ok (Some Examples.record_real)
  else if String.eqb line "deep" then Raise RecursionError
  else Ok None.

(** A line of a tab and a blank. *)
Definition blank_line : string := String (ascii_of_nat 9) " ".

End Samples.

(** * Properties *)

(** ** Detector-A filter *)

Section filter_facts.
Import Text FindingFilter.

Lemma has_undesired_term_spec (s : string) :
  has_undesired_term s
  = negb (forallb (fun term => negb (str_in term (str_lower s)))
            ["example"; "test"; "dummy"; "sample"]).
Proof.
  unfold has_undesired_term, Config.UNDESIRED_TERMS. simpl.
  repeat match goal with |- context [str_in ?t ?x] =>
    destruct (str_in t x); simpl; try reflexivity end.
Qed.

(** One turn of the loop that ends normally appends the record exactly
    when the retention condition holds. *)
Lemma filter_one_sound (obj : json) (kept : option json) :
  filter_one obj = Ok kept ->
  kept = if retained obj then Some (project obj) else None.
Proof.
  destruct obj as [| | | |l|d]; try discriminate.
  unfold filter_one, retained, project, detector_type_of, raw_text.
  destruct (in_int_list _ _); [|now intros [= <-]].
  rewrite andb_true_l.
  destruct (dict_get "Raw" d) as [raw|] eqn:Hraw.
  - assert (Hr : dict_get_or "Raw" (JStr EmptyString) d = raw)
      by (unfold dict_get_or; now rewrite Hraw).
    rewrite !Hr. clear Hr Hraw.
    destruct raw as [|b|z|s|l|d']; cbn [truthy].
    + now intros [= <-].
    + destruct b; [discriminate|now intros [= <-]].
    + destruct (Z.eqb z 0); cbn [negb]; [now intros [= <-]|discriminate].
    + destruct (negb (String.eqb s EmptyString)) eqn:Ht.
      * rewrite has_undesired_term_spec.
        destruct (forallb _ _); now intros [= <-].
      * apply negb_false_iff, String.eqb_eq in Ht. subst s.
        now intros [= <-].
    + destruct l; [now intros [= <-]|discriminate].
    + destruct d'; [now intros [= <-]|discriminate].
  - assert (Hr : dict_get_or "Raw" (JStr EmptyString) d = JStr EmptyString)
      by (unfold dict_get_or; now rewrite Hraw).
    rewrite !Hr. now intros [= <-].
Qed.

(** On a record the turn ends normally. *)
Lemma filter_one_record (obj : json) :
  is_record obj = true ->
  filter_one obj = Ok (if retained obj then Some (project obj) else None).
Proof.
  intros Hrec.
  destruct (filter_one obj) as [kept|e] eqn:Hone;
    [now rewrite (filter_one_sound obj kept Hone)|].
  destruct obj as [| | | |l|d]; try discriminate.
  unfold filter_one in Hone. cbn [is_record] in Hrec.
  destruct (in_int_list _ _); [|discriminate].
  unfold dict_get_or in Hone.
  destruct (dict_get "Raw" d) as [[| | |s| |]|]; try discriminate.
  destruct (truthy (JStr s)); [|discriminate].
  destruct (has_undesired_term s); discriminate.
Qed.

(** When the loop ends normally its result is the input filtered by the
    retention condition. *)
Lemma filtered_data_sound (objs out : list json) :
  filtered_data objs = Ok out ->
  out = map project (List.filter retained objs).
Proof.
  revert out. induction objs as [|obj objs IH]; intros out;
    [now intros [= <-]|].
  cbn [filtered_data List.filter].
  destruct (filter_one obj) as [kept|] eqn:Hone; [|discriminate].
  destruct (filtered_data objs) as [rest|]; [|discriminate].
  intros [= <-]. rewrite (filter_one_sound obj kept Hone), (IH rest eq_refl).
  destruct (retained obj); reflexivity.
Qed.

Lemma filtered_data_app (xs ys : list json) (a b : list json) :
  filtered_data xs = Ok a -> filtered_data ys = Ok b ->
  filtered_data (xs ++ ys) = Ok (a ++ b).
Proof.
  revert a. induction xs as [|x xs IH]; simpl; intros a Ha Hb.
  - injection Ha as <-. exact Hb.
  - destruct (filter_one x) as [kept|]; [|discriminate].
    destruct (filtered_data xs) as [out|]; [|discriminate].
    injection Ha as <-. rewrite (IH out eq_refl Hb).
    destruct kept; reflexivity.
Qed.

End filter_facts.

Section filter_in_spec_words.
Import Text FindingFilter.

Lemma startswith_iff (p s : string) :
  startswith p s = true <-> exists rest, s = p +:+ rest.
Proof.
  revert s. induction p as [|a p IH]; intros s.
  - split; [intros _; now exists s|reflexivity].
  - destruct s as [|b s]; cbn [startswith].
    + split; [discriminate|]. intros (rest & H). discriminate.
    + rewrite andb_true_iff, Ascii.eqb_eq, IH. split.
      * intros [-> (rest & ->)]. now exists rest.
      * intros (rest & H).
        change (String b s = String a (p +:+ rest)) in H.
        injection H as -> ->. split; [reflexivity|now exists rest].
Qed.

Lemma str_in_iff (x s : string) :
  str_in x s = true <-> exists before rest, s = before +:+ x +:+ rest.
Proof.
  induction s as [|c s IH].
  - cbn [str_in]. rewrite startswith_iff. split.
    + intros (rest & H). now exists EmptyString, rest.
    + intros (before & rest & H). destruct before as [|b before].
      * now exists rest.
      * discriminate.
  - cbn [str_in]. rewrite orb_true_iff, startswith_iff, IH. split.
    + intros [(rest & H) | (before & rest & ->)].
      * now exists EmptyString, rest.
      * now exists (String c before), rest.
    + intros (before & rest & H). destruct before as [|b before].
      * left. now exists rest.
      * change (String c s = String b (before +:+ x +:+ rest)) in H.
        injection H as -> ->. right. now exists before, rest.
Qed.

Lemma str_lower_append (a b : string) :
  str_lower (a +:+ b) = str_lower a +:+ str_lower b.
Proof.
  induction a as [|c a IH]; [reflexivity|].
  change (str_lower (String c (a +:+ b))
          = String (lower_char c) (str_lower a +:+ str_lower b)).
  cbn [str_lower]. now rewrite IH.
Qed.

Lemma str_lower_split (s a b : string) :
  str_lower s = a +:+ b ->
  exists a' b', s = a' +:+ b' /\ str_lower a' = a /\ str_lower b' = b.
Proof.
  revert s. induction a as [|c a IH]; intros s H.
  - exists EmptyString, s. auto.
  - destruct s as [|x s]; [discriminate|].
    change (String (lower_char x) (str_lower s) = String c (a +:+ b)) in H.
    injection H as Hc Hs. destruct (IH s Hs) as (a' & b' & -> & Ha & Hb).
    exists (String x a'), b'. split; [reflexivity|].
    split; [|exact Hb]. cbn [str_lower]. now rewrite Hc, Ha.
Qed.

(** Lower-casing a character gives the lower-case letter [t] exactly for
    [t] and for its capital. *)
Lemma lower_char_letter (c t : ascii) :
  lower_letter t = true -> lower_char c = t <-> same_letter c t.
Proof.
  unfold lower_letter, same_letter. intros Ht.
  apply andb_true_iff in Ht as [Hlo Hhi].
  apply N.leb_le in Hlo, Hhi.
  pose proof (N_ascii_bounded c) as Hc.
  assert (Heq : c = t <-> N_of_ascii c = N_of_ascii t).
  { split; [now intros ->|]. intros H.
    rewrite <- (ascii_N_embedding c), <- (ascii_N_embedding t).
    now rewrite H. }
  assert (Hup : (N_of_ascii c + 32 < 256)%N ->
                ascii_of_N (N_of_ascii c + 32) = t
                <-> (N_of_ascii c + 32 = N_of_ascii t)%N).
  { intros Hb. split.
    - intros <-. now rewrite N_ascii_embedding.
    - intros H. rewrite H. apply ascii_N_embedding. }
  unfold lower_char, in_range, ord.
  destruct (N.leb 65 (N_of_ascii c) && N.leb (N_of_ascii c) 90)%bool eqn:Hu.
  - cbn [orb]. apply andb_true_iff in Hu as [H1 H2].
    apply N.leb_le in H1, H2. rewrite Hup by lia. rewrite Heq. lia.
  - cbn [orb].
    destruct (N.leb 192 (N_of_ascii c) && N.leb (N_of_ascii c) 222
              && negb (N.eqb (N_of_ascii c) 215))%bool eqn:Hl.
    + apply andb_true_iff in Hl as [Hl _].
      apply andb_true_iff in Hl as [H1 H2]. apply N.leb_le in H1, H2.
      rewrite Hup by lia. rewrite Heq. lia.
    + rewrite Heq. split; [now left|]. intros [H|H]; [exact H|].
      apply andb_false_iff in Hu as [Hu|Hu]; apply N.leb_gt in Hu; lia.
Qed.

Lemma str_lower_word (word term : string) :
  forallb lower_letter (list_ascii_of_string term) = true ->
  str_lower word = term <-> same_word word term.
Proof.
  revert word. induction term as [|t term IH]; intros word Hterm.
  - destruct word; cbn; [tauto|]. split; [discriminate|intros []].
  - cbn [list_ascii_of_string forallb] in Hterm.
    apply andb_true_iff in Hterm as [Ht Hterm].
    destruct word as [|c word]; cbn [str_lower same_word].
    + split; [discriminate|intros []].
    + rewrite <- (IH word Hterm), <- (lower_char_letter c t Ht). split.
      * intros H. injection H as H1 H2. now split.
      * intros [H1 H2]. now rewrite H1, H2.
Qed.

(** The substring test on the lower-cased text is the occurrence of the
    term in any case. *)
Lemma str_in_lower_iff (term raw : string) :
  forallb lower_letter (list_ascii_of_string term) = true ->
  str_in term (str_lower raw) = true <-> contains_ignoring_case term raw.
Proof.
  intros Hterm. rewrite str_in_iff. unfold contains_ignoring_case. split.
  - intros (before & rest & H).
    apply str_lower_split in H as (b' & r' & -> & _ & H).
    apply str_lower_split in H as (w' & a' & -> & Hw & _).
    exists b', w', a'. split; [reflexivity|].
    now apply (str_lower_word w' term Hterm).
  - intros (before & word & rest & -> & Hw).
    apply (str_lower_word word term Hterm) in Hw.
    exists (str_lower before), (str_lower rest).
    now rewrite !str_lower_append, Hw.
Qed.

Lemma in_int_list_allow_listed (v : json) :
  in_int_list v Config.DESIRED_DETECTOR_TYPES = true <-> allow_listed v.
Proof.
  unfold allow_listed.
  destruct v as [|b|z|s|l|d];
    try (split; [discriminate|intros (z' & H & _); discriminate]).
  - split; [destruct b; discriminate|intros (z' & H & _); discriminate].
  - cbn [in_int_list]. rewrite existsb_exists. split.
    + intros (x & Hin & Hx). apply Z.eqb_eq in Hx. subst x.
      exists z. split; [reflexivity|exact Hin].
    + intros (z' & H & Hin). injection H as <-.
      exists z. split; [exact Hin|apply Z.eqb_refl].
Qed.

Lemma no_term_iff (raw : string) :
  forallb (fun term => negb (str_in term (str_lower raw)))
    ["example"; "test"; "dummy"; "sample"] = true
  <-> ~ placeholder_text raw.
Proof.
  rewrite forallb_forall. unfold placeholder_text. split.
  - intros H (term & Hin & Hc). specialize (H term Hin).
    apply negb_true_iff in H.
    assert (Hl : forallb lower_letter (list_ascii_of_string term) = true)
      by (cbn [In] in Hin;
          repeat (destruct Hin as [<-|Hin]; [reflexivity|]); destruct Hin).
    apply (str_in_lower_iff term raw Hl) in Hc. congruence.
  - intros H term Hin. apply negb_true_iff.
    destruct (str_in term (str_lower raw)) eqn:Hs; [|reflexivity].
    exfalso. apply H. exists term. split; [exact Hin|].
    assert (Hl : forallb lower_letter (list_ascii_of_string term) = true)
      by (cbn [In] in Hin;
          repeat (destruct Hin as [<-|Hin]; [reflexivity|]); destruct Hin).
    now apply (str_in_lower_iff term raw Hl).
Qed.

(** The retention test of the filter says what the specification says. *)
Lemma retained_iff (d : list (string * json)) :
  retained (JObj d) = true
  <-> allow_listed (dict_get_or "DetectorType" JNull d)
      /\ ~ placeholder_text
             match dict_get "Raw" d with
             | Some (JStr s) => s
             | _ => EmptyString
             end.
Proof.
  unfold retained. cbn [detector_type_of raw_text].
  now rewrite andb_true_iff, in_int_list_allow_listed, no_term_iff.
Qed.

End filter_in_spec_words.

Section filter_claims.
Import Text FindingFilter.

(** C1.  On detector-A records the filter keeps, in input order, exactly
    the records whose [DetectorType] is one of the 22 allow-listed codes
    and whose raw text, compared without regard to case, contains none
    of [example], [test], [dummy], [sample], each projected to its four
    fields; on any parsed values, whenever the filter ends normally its
    result is that.  The retention test is the condition of the
    specification, stated without the text operations of the program.
    In particular the record of type 2 with raw text
    [AKIA_real_key_value] is kept, the record of type 2 with raw text
    [test-AKIA-example] is dropped, and a record of type 9999 is dropped
    whatever else it holds; a term in capitals drops a record as well,
    and so does a code next to an allow-listed one. *)
Theorem filter_keeps_allow_listed_without_placeholder :
  length Config.DESIRED_DETECTOR_TYPES = 22%nat
  /\ (forall objs : list json,
        forallb is_record objs = true ->
        filtered_data objs = Ok (map project (List.filter retained objs)))
  /\ (forall objs out : list json,
        filtered_data objs = Ok out ->
        out = map project (List.filter retained objs))
  /\ filtered_data [Examples.record_real] = Ok [project Examples.record_real]
  /\ filtered_data [Examples.record_placeholder] = Ok []
  /\ (forall d : list (string * json),
        dict_get "DetectorType" d = Some (JNum 9999) ->
        filter_one (JObj d) = Ok None)
  /\ (forall d : list (string * json),
        retained (JObj d) = true
        <-> allow_listed (dict_get_or "DetectorType" JNull d)
            /\ ~ placeholder_text
                   match dict_get "Raw" d with
                   | Some (JStr s) => s
                   | _ => EmptyString
                   end)
  /\ (forall obj : json, (forall d, obj <> JObj d) -> retained obj = false)
  /\ (forall d : list (string * json),
        project (JObj d)
        = JObj [ ("SourceMetadata", dict_get_or "SourceMetadata" JNull d);
                 ("DetectorName", dict_get_or "DetectorName" JNull d);
                 ("DetectorType", dict_get_or "DetectorType" JNull d);
                 ("Raw", dict_get_or "Raw" (JStr EmptyString) d) ])
  /\ filtered_data
       [JObj [("DetectorType", JNum 3); ("Raw", JStr "My_DUMMY_Key")];
        JObj [("DetectorType", JNum 4); ("Raw", JStr "AKIA_real_key_value")];
        JObj [("DetectorType", JNum 924); ("Raw", JStr "ghp_16C7e42F292c")];
        JObj [("DetectorType", JNum 17); ("Raw", JStr "xoxb-SaMpLe-17")]]
     = Ok [JObj [("SourceMetadata", JNull); ("DetectorName", JNull);
                 ("DetectorType", JNum 924);
                 ("Raw", JStr "ghp_16C7e42F292c")]].
Proof.
  split; [reflexivity|].
  split; [|split; [exact filtered_data_sound|
                   split; [reflexivity|split; [reflexivity|split]]]].
  - induction objs as [|obj objs IH]; intros Hall; [reflexivity|].
    simpl in Hall. apply andb_true_iff in Hall as [Hobj Hrest].
    cbn [filtered_data List.filter map].
    rewrite (filter_one_record obj Hobj), (IH Hrest).
    destruct (retained obj); reflexivity.
  - intros d Hd. unfold filter_one, dict_get_or. rewrite Hd. reflexivity.
  - split; [exact retained_iff|]. split; [|split; reflexivity].
    intros obj Hobj. destruct obj; try reflexivity. now destruct (Hobj d).
Qed.

Lemma filter_keeps_allow_listed_without_placeholder_witness :
  forallb is_record
    [Examples.record_real; Examples.record_placeholder;
     Examples.record_unknown] = true
  /\ filtered_data
       [Examples.record_real; Examples.record_placeholder;
        Examples.record_unknown]
     = Ok [project Examples.record_real]
  /\ filter_one Examples.record_unknown = Ok None.
Proof.
  split; [reflexivity|]. split.
  - exact (proj1 (proj2 filter_keeps_allow_listed_without_placeholder)
             [Examples.record_real; Examples.record_placeholder;
              Examples.record_unknown] eq_refl).
  - exact (proj1 (proj2 (proj2 (proj2 (proj2 (proj2
             filter_keeps_allow_listed_without_placeholder)))))
             [("DetectorType", JNum 9999);
              ("Raw", JStr "AKIA_real_key_value")] eq_refl).
Defined.

(** C10.  A record whose [DetectorType] is allow-listed and whose [Raw]
    is missing or the empty string is kept, projected with an empty
    [Raw], wherever it stands among records that are filtered without
    an exception: the denylist is not consulted for it. *)
Theorem filter_keeps_empty_raw (pre post a b : list json)
    (d : list (string * json)) :
  filtered_data pre = Ok a ->
  filtered_data post = Ok b ->
  in_int_list (dict_get_or "DetectorType" JNull d)
    Config.DESIRED_DETECTOR_TYPES = true ->
  dict_get "Raw" d = None \/ dict_get "Raw" d = Some (JStr EmptyString) ->
  filtered_data (pre ++ JObj d :: post)
  = Ok (a ++ JObj [ ("SourceMetadata", dict_get_or "SourceMetadata" JNull d);
                    ("DetectorName", dict_get_or "DetectorName" JNull d);
                    ("DetectorType", dict_get_or "DetectorType" JNull d);
                    ("Raw", JStr EmptyString) ] :: b).
Proof.
  intros Ha Hb Hty Hraw.
  apply filtered_data_app; [exact Ha|].
  cbn [filtered_data]. rewrite Hb.
  assert (Hr : dict_get_or "Raw" (JStr EmptyString) d = JStr EmptyString)
    by (unfold dict_get_or; destruct Hraw as [-> | ->]; reflexivity).
  unfold filter_one. rewrite Hty, Hr. reflexivity.
Qed.

Lemma filter_keeps_empty_raw_witness :
  filtered_data
    ([Examples.record_placeholder]
       ++ JObj [("DetectorType", JNum 17); ("DetectorName", JStr "Slack")]
       :: [Examples.record_real])
  = Ok ([] ++ JObj [ ("SourceMetadata", JNull);
                     ("DetectorName", JStr "Slack");
                     ("DetectorType", JNum 17);
                     ("Raw", JStr EmptyString) ]
          :: [project Examples.record_real]).
Proof.
  exact (filter_keeps_empty_raw [Examples.record_placeholder]
           [Examples.record_real] [] [project Examples.record_real]
           [("DetectorType", JNum 17); ("DetectorName", JStr "Slack")]
           eq_refl eq_refl eq_refl (or_introl eq_refl)).
Defined.

End filter_claims.

(** ** Tag resolution *)

Section tag_lemmas.
Import Text Klepto2.

Lemma existsb_latest (names : list string) :
  existsb (String.eqb "latest") names = true <-> In "latest" names.
Proof.
  rewrite existsb_exists. split.
  - intros (x & Hin & Heq). apply String.eqb_eq in Heq. now subst x.
  - intros Hin. exists "latest". split; [exact Hin|reflexivity].
Qed.

(** The tag chosen when the lookup runs, by the answer of Docker Hub. *)
Lemma resolve_tag_lookup (w : World) (image_name : string) :
  str_in ":" image_name = false ->
  ((1 <? Z.of_nat (length (str_split "/" image_name)))
   && str_in "." (hd EmptyString (str_split "/" image_name)))%bool = false ->
  resolve_tag w image_name
  = ([HubTags (hub_repo image_name)],
     Ok (image_name +:+ ":" +:+
         match hub_tags w (hub_repo image_name) with
         | Results (first :: rest) =>
             if existsb (String.eqb "latest") (first :: rest) then "latest"
             else if String.eqb first EmptyString then "latest" else first
         | _ => "latest"
         end)).
Proof.
  intros Hcolon Hreg. unfold resolve_tag. rewrite Hcolon, Hreg.
  cbn [negb]. unfold HubClient.get_best_tag, hub_repo.
  destruct (str_in "/" image_name); cbn [negb];
    (destruct (hub_tags w _) as [| |[|first rest]]; [reflexivity..|]);
    (destruct (existsb _ _); [reflexivity|]);
    cbn; destruct (String.eqb first EmptyString); reflexivity.
Qed.

End tag_lemmas.

Section tag_claims.
Import Text Klepto2.

Lemma registry_qualified_test (image_name : string) :
  ((1 <? Z.of_nat (length (str_split "/" image_name)))
   && str_in "." (hd EmptyString (str_split "/" image_name)))%bool = true
  <-> registry_qualified image_name.
Proof.
  unfold registry_qualified. rewrite andb_true_iff, Z.ltb_lt.
  split; intros [H1 H2]; (split; [lia|exact H2]).
Qed.

(** C2.  For an identifier without [:]: when it has more than one path
    segment and a dot in the first, [:latest] is appended and no tag
    request is made; otherwise one tag request is made and the tag is
    [latest] when the returned tags hold it, else the first returned tag
    (when it has a name), else [latest]; a failed request, a 404 and an
    empty list give [latest].  So [myrepo] resolves to [myrepo:latest]
    when the returned tags hold [latest], to [myrepo:v2] when they are
    [v2], [v1], and to [myrepo:latest] when the request fails. *)
Theorem tag_resolution (w : World) (image_name : string) :
  str_in ":" image_name = false ->
  (registry_qualified image_name ->
   resolve_tag w image_name = ([], Ok (image_name +:+ ":latest")))
  /\ (~ registry_qualified image_name ->
      let repo := hub_repo image_name in
      (forall names, hub_tags w repo = Results names ->
         In "latest" names ->
         resolve_tag w image_name
         = ([HubTags repo], Ok (image_name +:+ ":latest")))
      /\ (forall first rest, hub_tags w repo = Results (first :: rest) ->
          ~ In "latest" (first :: rest) -> first <> EmptyString ->
          resolve_tag w image_name
          = ([HubTags repo], Ok (image_name +:+ ":" +:+ first)))
      /\ (forall rest, hub_tags w repo = Results (EmptyString :: rest) ->
          resolve_tag w image_name
          = ([HubTags repo], Ok (image_name +:+ ":latest")))
      /\ (hub_tags w repo = RequestFailed \/ hub_tags w repo = NotFound
          \/ hub_tags w repo = Results [] ->
          resolve_tag w image_name
          = ([HubTags repo], Ok (image_name +:+ ":latest"))))
  /\ (image_name = "myrepo" ->
      (forall names, hub_tags w "library/myrepo" = Results names ->
         In "latest" names ->
         snd (resolve_tag w image_name) = Ok "myrepo:latest")
      /\ (hub_tags w "library/myrepo" = Results ["v2"; "v1"] ->
          snd (resolve_tag w image_name) = Ok "myrepo:v2")
      /\ (hub_tags w "library/myrepo" = RequestFailed ->
          snd (resolve_tag w image_name) = Ok "myrepo:latest")).
Proof.
  intros Hcolon. split; [|split].
  - intros Hreg. apply registry_qualified_test in Hreg.
    unfold resolve_tag. rewrite Hcolon, Hreg. reflexivity.
  - intros Hreg repo.
    assert (Hb : ((1 <? Z.of_nat (length (str_split "/" image_name)))
                  && str_in "." (hd EmptyString (str_split "/" image_name)))%bool
                 = false).
    { apply not_true_is_false. intros H. apply Hreg.
      now apply registry_qualified_test. }
    pose proof (resolve_tag_lookup w image_name Hcolon Hb) as Hres.
    fold repo in Hres. rewrite Hres. clear Hres.
    split; [|split; [|split]].
    + intros names Hw Hin. rewrite Hw.
      destruct names as [|first rest]; [destruct Hin|].
      apply existsb_latest in Hin. rewrite Hin. reflexivity.
    + intros first rest Hw Hn Hne. rewrite Hw.
      destruct (existsb (String.eqb "latest") (first :: rest)) eqn:Hl.
      * apply existsb_latest in Hl. contradiction.
      * apply String.eqb_neq in Hne. rewrite Hne. reflexivity.
    + intros rest Hw. rewrite Hw.
      destruct (existsb _ _); reflexivity.
    + intros [Hw | [Hw | Hw]]; rewrite Hw; reflexivity.
  - intros ->. split; [|split].
    + intros names Hw Hin.
      rewrite (resolve_tag_lookup w "myrepo" eq_refl eq_refl).
      change (hub_repo "myrepo") with "library/myrepo". rewrite Hw.
      destruct names as [|first rest]; [destruct Hin|].
      apply existsb_latest in Hin. rewrite Hin. reflexivity.
    + intros Hw.
      rewrite (resolve_tag_lookup w "myrepo" eq_refl eq_refl).
      change (hub_repo "myrepo") with "library/myrepo". rewrite Hw.
      reflexivity.
    + intros Hw.
      rewrite (resolve_tag_lookup w "myrepo" eq_refl eq_refl).
      change (hub_repo "myrepo") with "library/myrepo". rewrite Hw.
      reflexivity.
Qed.

Lemma tag_resolution_witness :
  str_in ":" "myrepo" = false
  /\ resolve_tag (Examples.with_tags (Results ["v2"; "v1"])) "myrepo"
     = ([HubTags "library/myrepo"], Ok "myrepo:v2")
  /\ resolve_tag (Examples.with_tags (Results ["v1"; "latest"])) "myrepo"
     = ([HubTags "library/myrepo"], Ok "myrepo:latest")
  /\ resolve_tag Examples.quiet "registry.example.com/team/app"
     = ([], Ok "registry.example.com/team/app:latest").
Proof.
  split; [reflexivity|]. split; [|split].
  - refine (proj1 (proj2 (proj1 (proj2
              (tag_resolution (Examples.with_tags (Results ["v2"; "v1"]))
                 "myrepo" eq_refl)) _)) "v2" ["v1"] eq_refl _ _).
    + intros [H _]. cbn in H. lia.
    + intros [H|[H|[]]]; discriminate.
    + discriminate.
  - refine (proj1 (proj1 (proj2
              (tag_resolution (Examples.with_tags (Results ["v1"; "latest"]))
                 "myrepo" eq_refl)) _) ["v1"; "latest"] eq_refl _).
    + intros [H _]. cbn in H. lia.
    + right. left. reflexivity.
  - refine (proj1 (tag_resolution Examples.quiet
              "registry.example.com/team/app" eq_refl) _).
    split; [cbn; lia|reflexivity].
Defined.

End tag_claims.

(** ** Scheduler: mode resolution and deduplication *)

Section scheduler_claims.
Import Text Klepto2.

Lemma resolve_mixed_ok (w : World) (inputs : list string) :
  resolve_mixed w inputs
  = (map HubSearch (List.filter (fun term => negb (is_image term)) inputs),
     Ok (flat_map (mixed_names w) inputs)).
Proof.
  induction inputs as [|term rest IH]; [reflexivity|].
  cbn [resolve_mixed List.filter flat_map]. rewrite IH.
  unfold mixed_names at 2.
  destruct (is_image term); cbn; rewrite ?app_nil_r; reflexivity.
Qed.

(** C8, the statement as written fails: [quay.io] holds no [:] and its
    first path segment holds a dot, yet mode [mixed] passes it to the
    registry search. *)
Lemma mixed_single_segment_with_dot_is_searched :
  str_in "." (hd EmptyString (str_split "/" "quay.io")) = true
  /\ ~ (is_image "quay.io" = true
        <-> (str_in ":" "quay.io" = true
             \/ str_in "." (hd EmptyString (str_split "/" "quay.io")) = true))
  /\ resolve_mixed Examples.quiet ["quay.io"] = ([HubSearch "quay.io"], Ok []).
Proof.
  split; [reflexivity|]. split; [|reflexivity].
  intros [_ H]. specialize (H (or_intror eq_refl)). discriminate.
Qed.

(** C8, amended.  In mode [mixed] an input is taken as a literal image
    name exactly when it holds [:] or has more than one path segment
    with a dot in the first; every other input is passed to the registry
    search, and the names collected are the literal names and the search
    results, in input order. *)
Theorem mixed_mode_literal_or_search (w : World) :
  (forall term : string,
     is_image term = true
     <-> (str_in ":" term = true \/ registry_qualified term))
  /\ (forall inputs : list string,
        resolve_inputs w inputs "mixed"
        = (map HubSearch
             (List.filter (fun term => negb (is_image term)) inputs),
           Ok (flat_map
                 (fun term =>
                    if is_image term then [term]
                    else match hub_search w term with
                         | Some found => found
                         | None => []
                         end)
                 inputs))).
Proof.
  split.
  - intros term. unfold is_image. rewrite orb_true_iff.
    rewrite registry_qualified_test. reflexivity.
  - intros inputs. unfold resolve_inputs. cbn [String.eqb Ascii.eqb].
    change (String.eqb "mixed" "search") with false.
    change (String.eqb "mixed" "image") with false.
    change (String.eqb "mixed" "mixed") with true. cbn iota.
    apply resolve_mixed_ok.
Qed.

End scheduler_claims.

Section dedup_claims.
Import Text Klepto2.

Lemma search_all_ok (w : World) (inputs : list string) :
  search_all w inputs
  = (map HubSearch inputs,
     Ok (flat_map
           (fun term =>
              match hub_search w term with Some found => found | None => [] end)
           inputs)).
Proof.
  induction inputs as [|term rest IH]; [reflexivity|].
  cbn [search_all map flat_map]. rewrite IH.
  cbn. rewrite ?app_nil_r. reflexivity.
Qed.

(** Mode resolution never raises. *)
Lemma resolve_inputs_ok (w : World) (inputs : list string) (mode : string) :
  exists evs names, resolve_inputs w inputs mode = (evs, Ok names).
Proof.
  unfold resolve_inputs.
  destruct (String.eqb mode "search");
    [rewrite search_all_ok; eauto|].
  destruct (String.eqb mode "image"); [unfold ret; eauto|].
  destruct (String.eqb mode "mixed");
    [rewrite resolve_mixed_ok; eauto|unfold ret; eauto].
Qed.

Lemma task_ok (cfg : Config.settings) (w : World) (img : string) :
  snd (task cfg w img) = Ok tt.
Proof.
  unfold task. destruct (process_image cfg w img) as [evs [r|e]]; reflexivity.
Qed.

Lemma run_tasks_ok (cfg : Config.settings) (w : World) (imgs : list string) :
  run_tasks cfg w imgs
  = (flat_map (fun img => fst (task cfg w img)) imgs, Ok tt).
Proof.
  induction imgs as [|img rest IH]; [reflexivity|].
  cbn [run_tasks flat_map]. rewrite IH.
  pose proof (task_ok cfg w img) as Hok.
  destruct (task cfg w img) as [evs r]. cbn in Hok. subst r. reflexivity.
Qed.

Lemma unique_NoDup (names : list string) : List.NoDup (unique names).
Proof. unfold unique. apply NoDup_ListNoDup, NoDup_elements. Qed.

Lemma unique_In (names : list string) (img : string) :
  In img (unique names) <-> In img names.
Proof.
  unfold unique. rewrite <- !list_elem_of_In.
  rewrite elem_of_elements, elem_of_list_to_set. reflexivity.
Qed.

Lemma run_tasks_processed (cfg : Config.settings) (w : World)
    (imgs : list string) :
  run_tasks cfg w imgs
  = (flat_map
       (fun img =>
          match process_image cfg w img with
          | (evs, Ok _) => evs
          | (evs, Raise e) => evs ++ [LogError img e]
          end)
       imgs,
     Ok tt).
Proof.
  rewrite run_tasks_ok. f_equal. apply flat_map_ext. intros img.
  unfold task. destruct (process_image cfg w img) as [evs [r|e]]; reflexivity.
Qed.

Lemma unique_empty (names : list string) : unique names = [] <-> names = [].
Proof.
  split.
  - intros Hu. destruct names as [|img rest]; [reflexivity|].
    assert (Hin : In img (unique (img :: rest)))
      by (apply unique_In; now left).
    rewrite Hu in Hin. destruct Hin.
  - intros ->. reflexivity.
Qed.

(** C7.  Mode resolution gives the names of the mode: the search results
    of every input in mode [search], the inputs themselves in mode
    [image], the literal names and the search results in mode [mixed],
    nothing in any other mode.  [run] keeps one copy of every name: a
    name resolved once or several times is kept exactly once, a name
    that was not resolved is not kept.  With a positive number of
    workers [run] submits every kept name once and runs [process_image]
    once for each, logging the exception of a run that raises, and ends
    normally; without a name it ends at once; with names and a number
    of workers that is not positive the executor refuses to start and
    nothing is processed.  Two search terms whose results share
    [nginx], one of them given twice, have [nginx] scanned once. *)
Theorem each_distinct_image_once (cfg : Config.settings) (w : World)
    (inputs : list string) (mode : string) :
  let found := fun term : string =>
    match hub_search w term with Some l => l | None => [] end in
  let literal := fun term : string =>
    (str_in ":" term
     || ((1 <? Z.of_nat (length (str_split "/" term)))
         && str_in "." (hd EmptyString (str_split "/" term))))%bool in
  let names :=
    if String.eqb mode "search" then flat_map found inputs
    else if String.eqb mode "image" then inputs
    else if String.eqb mode "mixed"
         then flat_map
                (fun term => if literal term then [term] else found term)
                inputs
         else [] in
  let searched :=
    if String.eqb mode "search" then inputs
    else if String.eqb mode "image" then []
    else if String.eqb mode "mixed"
         then List.filter (fun term => negb (literal term)) inputs
         else [] in
  let processed := fun img : string =>
    match process_image cfg w img with
    | (evs, Ok _) => evs
    | (evs, Raise e) => evs ++ [LogError img e]
    end in
  resolve_inputs w inputs mode = (map HubSearch searched, Ok names)
  /\ List.NoDup (unique names)
  /\ (forall img : string,
        (In img names -> count_occ string_dec (unique names) img = 1%nat)
        /\ (~ In img names ->
            count_occ string_dec (unique names) img = 0%nat))
  /\ (0 < Config.MAX_WORKERS cfg ->
      run cfg w inputs mode
      = (map HubSearch searched ++ map Submit (unique names)
           ++ flat_map processed (unique names),
         Ok tt))
  /\ (names = [] -> run cfg w inputs mode = (map HubSearch searched, Ok tt))
  /\ (Config.MAX_WORKERS cfg <= 0 -> names <> [] ->
      run cfg w inputs mode = (map HubSearch searched, Raise ValueError))
  /\ run Config.defaults Samples.shared_hit ["web"; "proxy"; "web"] "search"
     = ([HubSearch "web"; HubSearch "proxy"; HubSearch "web";
         Submit "nginx"; Submit "httpd";
         HubTags "library/nginx";
         SkopeoInspect "nginx:latest";
         SkopeoPull "nginx:latest" "/tmp/tmpk2/image_data" false;
         ReleaseTemp "/tmp/tmpk2";
         HubTags "library/httpd";
         SkopeoInspect "httpd:latest";
         SkopeoPull "httpd:latest" "/tmp/tmpk2/image_data" false;
         ReleaseTemp "/tmp/tmpk2"],
        Ok tt)
  /\ run Config.defaults Samples.shared_hit
       ["nginx:1"; "web"; "nginx:1"; "quay.io/a/b"] "mixed"
     = ([HubSearch "web";
         Submit "quay.io/a/b"; Submit "nginx:1"; Submit "nginx";
         Submit "httpd";
         SkopeoInspect "quay.io/a/b:latest";
         SkopeoPull "quay.io/a/b:latest" "/tmp/tmpk2/image_data" false;
         ReleaseTemp "/tmp/tmpk2";
         SkopeoInspect "nginx:1";
         SkopeoPull "nginx:1" "/tmp/tmpk2/image_data" false;
         ReleaseTemp "/tmp/tmpk2";
         HubTags "library/nginx";
         SkopeoInspect "nginx:latest";
         SkopeoPull "nginx:latest" "/tmp/tmpk2/image_data" false;
         ReleaseTemp "/tmp/tmpk2";
         HubTags "library/httpd";
         SkopeoInspect "httpd:latest";
         SkopeoPull "httpd:latest" "/tmp/tmpk2/image_data" false;
         ReleaseTemp "/tmp/tmpk2"],
        Ok tt).
Proof.
  intros found literal names searched processed.
  assert (Hres : resolve_inputs w inputs mode
                 = (map HubSearch searched, Ok names)).
  { unfold resolve_inputs, names, searched.
    destruct (String.eqb mode "search"); [apply search_all_ok|].
    destruct (String.eqb mode "image"); [reflexivity|].
    destruct (String.eqb mode "mixed"); [apply resolve_mixed_ok|reflexivity]. }
  split; [exact Hres|]. split; [apply unique_NoDup|]. split.
  { intros img. split.
    - intros Hin.
      apply (proj1 (List.NoDup_count_occ' string_dec (unique names))).
      + apply unique_NoDup.
      + now apply unique_In.
    - intros Hn. apply count_occ_not_In. now rewrite unique_In. }
  split.
  { intros Hpos. unfold run. rewrite Hres. cbn [bind].
    destruct (unique names) as [|img rest] eqn:Hu.
    - cbn. rewrite app_nil_r. reflexivity.
    - destruct (Z.leb_spec (Config.MAX_WORKERS cfg) 0) as [Hle|_]; [lia|].
      rewrite run_tasks_processed. reflexivity. }
  split.
  { intros Hnil. unfold run. rewrite Hres. cbn [bind].
    rewrite (proj2 (unique_empty names) Hnil). cbn.
    rewrite app_nil_r. reflexivity. }
  split; [|split; reflexivity].
  intros Hle Hne. unfold run. rewrite Hres. cbn [bind].
  destruct (unique names) as [|img rest] eqn:Hu.
  - exact (False_ind _ (Hne (proj1 (unique_empty names) Hu))).
  - destruct (Z.leb_spec (Config.MAX_WORKERS cfg) 0) as [_|Hlt]; [|lia].
    cbn. rewrite app_nil_r. reflexivity.
Qed.

Lemma each_distinct_image_once_witness :
  0 < Config.MAX_WORKERS Config.defaults
  /\ count_occ string_dec
       (unique ["library/redis"; "redis:7"; "library/redis"])
       "library/redis" = 1%nat
  /\ run Config.defaults Examples.quiet ["b"; "a"; "b"] "image"
     = (map Submit (unique ["b"; "a"; "b"])
          ++ flat_map
               (fun img =>
                  match process_image Config.defaults Examples.quiet img with
                  | (evs, Ok _) => evs
                  | (evs, Raise e) => evs ++ [LogError img e]
                  end)
               (unique ["b"; "a"; "b"]),
        Ok tt).
Proof.
  split; [reflexivity|]. split.
  - exact (proj1 (proj1 (proj2 (proj2
             (each_distinct_image_once Config.defaults Examples.quiet
                ["library/redis"; "redis:7"; "library/redis"] "image")))
             "library/redis") (or_introl eq_refl)).
  - exact (proj1 (proj2 (proj2 (proj2
             (each_distinct_image_once Config.defaults Examples.quiet
                ["b"; "a"; "b"] "image"))))
             eq_refl).
Defined.

End dedup_claims.

(** ** Artifact names *)

Section artifact_claims.
Import Text Klepto2.

Lemma length_append (a b : string) :
  String.length (a +:+ b) = (String.length a + String.length b)%nat.
Proof. induction a as [|c a IH]; simpl; [reflexivity|now rewrite IH]. Qed.

Lemma append_inv_tail (a b suffix : string) :
  a +:+ suffix = b +:+ suffix -> a = b.
Proof.
  revert b. induction a as [|c a IH]; intros [|d b] H.
  - reflexivity.
  - apply (f_equal String.length) in H.
    rewrite !length_append in H. cbn in H. lia.
  - apply (f_equal String.length) in H.
    rewrite !length_append in H. cbn in H. lia.
  - cbn in H. injection H as -> H. f_equal. now apply IH.
Qed.

Lemma append_inv_head (prefix a b : string) :
  prefix +:+ a = prefix +:+ b -> a = b.
Proof.
  induction prefix as [|c p IH]; cbn; intros H; [exact H|].
  injection H as H. now apply IH.
Qed.

(** Replacing one character by another is a map over the characters. *)
Lemma str_replace_char (a b : ascii) (s : string) :
  str_replace (String a EmptyString) (String b EmptyString) s
  = str_map (fun c => if Ascii.eqb a c then b else c) s.
Proof.
  unfold str_replace. induction s as [|c s IH]; [reflexivity|].
  cbn [replace_from startswith str_map]. rewrite andb_true_r.
  destruct (Ascii.eqb a c); cbn; rewrite IH; reflexivity.
Qed.

Lemma str_map_map (f g : ascii -> ascii) (s : string) :
  str_map g (str_map f s) = str_map (fun c => g (f c)) s.
Proof. induction s as [|c s IH]; cbn; [reflexivity|now rewrite IH]. Qed.

Lemma str_map_ext (f g : ascii -> ascii) (s : string) :
  (forall c, f c = g c) -> str_map f s = str_map g s.
Proof.
  intros H. induction s as [|c s IH]; cbn; [reflexivity|].
  now rewrite H, IH.
Qed.

Lemma safe_name_map (image_name : string) :
  safe_name image_name = str_map underscore image_name.
Proof.
  unfold safe_name. rewrite !str_replace_char, str_map_map.
  apply str_map_ext. intros c. unfold underscore, is_separator.
  destruct (Ascii.eqb "/" c) eqn:H1.
  - apply Ascii.eqb_eq in H1. subst c. reflexivity.
  - destruct (Ascii.eqb ":" c) eqn:H2.
    + apply Ascii.eqb_eq in H2. subst c. reflexivity.
    + rewrite (Ascii.eqb_sym c "/"), (Ascii.eqb_sym c ":"), H1, H2.
      cbn. destruct (Ascii.eqb c "_") eqn:H3; [|reflexivity].
      apply Ascii.eqb_eq in H3. now subst c.
Qed.

Lemma underscore_eq (x y : ascii) :
  underscore x = underscore y
  <-> x = y \/ (is_separator x = true /\ is_separator y = true).
Proof.
  unfold underscore.
  destruct (is_separator x) eqn:Hx, (is_separator y) eqn:Hy.
  - split; auto.
  - split.
    + intros <-. cbn in Hy. discriminate.
    + intros [<- | [_ H]]; [congruence|discriminate].
  - split.
    + intros ->. cbn in Hx. discriminate.
    + intros [-> | [H _]]; [congruence|discriminate].
  - split; [auto|]. intros [H | [H _]]; [exact H|discriminate].
Qed.

Lemma str_map_underscore_eq (a b : string) :
  str_map underscore a = str_map underscore b <-> same_up_to_separators a b.
Proof.
  revert b. induction a as [|x a IH]; intros [|y b]; cbn;
    try (split; [discriminate|intros []]); [tauto|].
  rewrite <- IH, <- underscore_eq. split.
  - intros H. injection H as H1 H2. now split.
  - intros [H1 H2]. now rewrite H1, H2.
Qed.

Lemma output_file_inj (cfg : Config.settings) (a b : string) :
  output_file cfg a = output_file cfg b <-> safe_name a = safe_name b.
Proof.
  split; [|unfold output_file; now intros ->].
  unfold output_file, path_join.
  change (startswith "/" ("results_" +:+ ?x)) with false. cbn iota.
  destruct (_ || _)%bool; intros H.
  - apply append_inv_head in H. cbn in H.
    apply (append_inv_head "results_") in H.
    now apply append_inv_tail in H.
  - apply append_inv_head in H. cbn in H.
    apply (append_inv_head "/results_") in H.
    now apply append_inv_tail in H.
Qed.

End artifact_claims.

Section artifact_collisions.
Import Text Klepto2.

(** C9, the statement as written fails: [foo/bar_baz:1] and
    [foo_bar/baz:1] are two distinct identifiers of the deduplicated set,
    each is its own tag-resolved reference, and both are persisted at
    the same path; the run over the two leaves one artifact.  Likewise
    [nginx] and [nginx:latest] are distinct identifiers resolved to the
    same reference. *)
Lemma distinct_images_one_artifact :
  let ids := unique ["foo/bar_baz:1"; "foo_bar/baz:1"] in
  In "foo/bar_baz:1" ids /\ In "foo_bar/baz:1" ids
  /\ "foo/bar_baz:1" <> "foo_bar/baz:1"
  /\ snd (resolve_tag Examples.quiet "foo/bar_baz:1") = Ok "foo/bar_baz:1"
  /\ snd (resolve_tag Examples.quiet "foo_bar/baz:1") = Ok "foo_bar/baz:1"
  /\ output_file Config.defaults "foo/bar_baz:1"
     = output_file Config.defaults "foo_bar/baz:1"
  /\ size (written
             (fst (run Config.defaults Examples.quiet
                     ["foo/bar_baz:1"; "foo_bar/baz:1"] "image")) ∅) = 1%nat
  /\ snd (resolve_tag (Examples.with_tags (Results ["latest"])) "nginx")
     = snd (resolve_tag (Examples.with_tags (Results ["latest"]))
              "nginx:latest").
Proof.
  cbv zeta. rewrite !unique_In.
  repeat split; try reflexivity; try (cbn; tauto); try discriminate.
Qed.

(** C9, amended.  The artifact path is a function of the reference with
    [/] and [:] turned into [_]: two tag-resolved references are
    persisted at the same path exactly when they have the same length
    and differ only at positions where both hold one of [/], [:] and
    [_].  References that differ in any other way get distinct paths. *)
Theorem artifact_paths_collide_only_on_separators (cfg : Config.settings)
    (a b : string) :
  (output_file cfg a = output_file cfg b <-> safe_name a = safe_name b)
  /\ (safe_name a = safe_name b <-> same_up_to_separators a b)
  /\ (~ same_up_to_separators a b -> output_file cfg a <> output_file cfg b).
Proof.
  assert (H1 := output_file_inj cfg a b).
  assert (H2 : safe_name a = safe_name b <-> same_up_to_separators a b)
    by (rewrite !safe_name_map; apply str_map_underscore_eq).
  split; [exact H1|]. split; [exact H2|].
  intros Hn Heq. apply Hn, H2, H1, Heq.
Qed.

Lemma artifact_paths_collide_only_on_separators_witness :
  output_file Config.defaults "nginx:1.25"
  <> output_file Config.defaults "nginx:1.26".
Proof.
  refine (proj2 (proj2 (artifact_paths_collide_only_on_separators
            Config.defaults "nginx:1.25" "nginx:1.26")) _).
  cbn. intros H. decompose [and or] H; discriminate.
Defined.

End artifact_collisions.

(** ** Layer extraction *)

Section extractor_claims.
Import Text LayerExtractor.

Lemma collect_layers_none_on_disk (w : World) (image_dir : string)
    (layers : list json) (files : list string) :
  no_layer_on_disk w image_dir layers ->
  collect_layers w image_dir layers files = files.
Proof.
  revert files. induction layers as [|layer rest IH]; intros files Hnone;
    [reflexivity|].
  destruct (Hnone layer (or_introl eq_refl))
    as (d & digest & -> & Hd & Hclean & Hraw).
  cbn [collect_layers]. rewrite Hd, Hclean, Hraw.
  apply IH. intros l Hl. apply Hnone. now right.
Qed.

Lemma not_metadata_spec (f : string) :
  not_metadata f = true <-> f <> "manifest.json" /\ f <> "version".
Proof.
  unfold not_metadata. cbn [existsb]. rewrite orb_false_r, negb_true_iff.
  rewrite orb_false_iff, !String.eqb_neq. reflexivity.
Qed.

(** C4.  When the manifest is absent, cannot be read as JSON, or yields
    no layer file (none of its layers has a candidate on disk, or more
    generally the list built from it is empty), [tar] is run on exactly
    the entries of the pulled directory other than [manifest.json] and
    [version], in listing order; on an empty directory nothing is
    extracted and the call ends normally. *)
Theorem manifest_fallback (w : World) (image_dir extract_root : string) :
  let manifest_path := path_join image_dir "manifest.json" in
  path_exists w manifest_path = false
  \/ (forall v, read_json w manifest_path <> Json v)
  \/ (exists manifest layers,
        read_json w manifest_path = Json (JObj manifest)
        /\ py_iter (dict_get_or "layers" (JArr []) manifest) = Ok layers
        /\ no_layer_on_disk w image_dir layers)
  \/ manifest_files w image_dir = [] ->
  extract_image w image_dir extract_root
  = (map (fun filename => Tar (path_join image_dir filename) extract_root)
       (List.filter not_metadata (listdir w image_dir)),
     Ok tt)
  /\ (forall f : string,
        In f (files_to_extract w image_dir)
        <-> In f (listdir w image_dir)
            /\ f <> "manifest.json" /\ f <> "version")
  /\ (listdir w image_dir = [] ->
      extract_image w image_dir extract_root = ([], Ok tt)).
Proof.
  intros manifest_path Hcases.
  assert (Hnil : manifest_files w image_dir = []).
  { unfold manifest_files. fold manifest_path.
    destruct Hcases as [Habsent | [Hbad | [Hzero | Hnil]]].
    - now rewrite Habsent.
    - destruct (path_exists w manifest_path); [|reflexivity].
      destruct (read_json w manifest_path) as [| | |v] eqn:Hr;
        try reflexivity.
      now destruct (Hbad v).
    - destruct Hzero as (manifest & layers & Hr & Hit & Hnone).
      destruct (path_exists w manifest_path); [|reflexivity].
      rewrite Hr, Hit. now apply collect_layers_none_on_disk.
    - exact Hnil. }
  assert (Hfiles : files_to_extract w image_dir
                   = List.filter not_metadata (listdir w image_dir))
    by (unfold files_to_extract; now rewrite Hnil).
  unfold extract_image, emit_all. rewrite Hfiles.
  split; [reflexivity|]. split.
  - intros f. rewrite filter_In, not_metadata_spec. reflexivity.
  - intros ->. reflexivity.
Qed.

Lemma manifest_fallback_witness :
  extract_image Examples.pulled_without_manifest "/tmp/tmpk2/image_data"
    "/tmp/tmpk2/extracted"
  = ([Tar "/tmp/tmpk2/image_data/4f4fb700ef54" "/tmp/tmpk2/extracted";
      Tar "/tmp/tmpk2/image_data/a3ed95caeb02" "/tmp/tmpk2/extracted"],
     Ok tt)
  /\ extract_image Examples.quiet "/tmp/tmpk2/image_data"
       "/tmp/tmpk2/extracted" = ([], Ok tt).
Proof.
  split.
  - exact (proj1 (manifest_fallback Examples.pulled_without_manifest
                    "/tmp/tmpk2/image_data" "/tmp/tmpk2/extracted"
                    (or_introl eq_refl))).
  - exact (proj2 (proj2 (manifest_fallback Examples.quiet
                    "/tmp/tmpk2/image_data" "/tmp/tmpk2/extracted"
                    (or_introl eq_refl))) eq_refl).
Defined.

End extractor_claims.

(** ** File pattern scanner: the shadow rule *)

Section shadow_claims.
Import Text FileScanner.

Lemma str_in_char (c : ascii) (s : string) :
  str_in (String c EmptyString) s = char_in c s.
Proof.
  induction s as [|a s IH]; [reflexivity|].
  cbn [str_in startswith char_in]. rewrite IH, andb_true_r.
  now rewrite (Ascii.eqb_sym c a), Ascii.eqb_sym.
Qed.

Lemma char_in_append (c : ascii) (a b : string) :
  char_in c (a +:+ b) = (char_in c a || char_in c b)%bool.
Proof.
  induction a as [|x a IH]; [reflexivity|].
  simpl. now rewrite IH, orb_assoc.
Qed.

Lemma startswith_refl (s : string) : startswith s s = true.
Proof.
  induction s as [|c s IH]; [reflexivity|].
  cbn. now rewrite Ascii.eqb_refl.
Qed.

Lemma str_in_refl (s : string) : str_in s s = true.
Proof. destruct s; cbn [str_in]; now rewrite startswith_refl. Qed.

Lemma str_in_append (prefix s : string) : str_in s (prefix +:+ s) = true.
Proof.
  induction prefix as [|c p IH]; [apply str_in_refl|].
  simpl. rewrite IH. apply orb_true_r.
Qed.

(** A dollar sign of the text sits on one of its lines. *)
Lemma splitlines_keeps_dollar (s cur : string) (skip_lf : bool) :
  (char_in "$" cur || char_in "$" s)%bool = true ->
  exists line,
    In line (splitlines_from cur skip_lf s) /\ char_in "$" line = true.
Proof.
  revert cur skip_lf. induction s as [|c s IH]; intros cur skip_lf H.
  - rewrite orb_false_r in H. cbn [splitlines_from].
    destruct cur as [|x cur]; [discriminate|].
    eexists. split; [left; reflexivity|exact H].
  - cbn [splitlines_from].
    destruct (skip_lf && N.eqb (ord c) 10)%bool eqn:Hskip.
    + apply IH. apply andb_true_iff in Hskip as [_ Hc].
      cbn [char_in] in H.
      destruct (Ascii.eqb "$" c) eqn:Hd; [|exact H].
      apply Ascii.eqb_eq in Hd. subst c. discriminate.
    + destruct (is_linebreak c) eqn:Hbr.
      * cbn [char_in] in H.
        destruct (Ascii.eqb "$" c) eqn:Hd.
        { apply Ascii.eqb_eq in Hd. subst c. discriminate. }
        destruct (char_in "$" cur) eqn:Hcur.
        -- exists cur. split; [left; reflexivity|exact Hcur].
        -- destruct (IH EmptyString (N.eqb (ord c) 13) H)
             as (line & Hin & Hl).
           exists line. split; [right; exact Hin|exact Hl].
      * apply IH. rewrite char_in_append. cbn [char_in] in *.
        rewrite orb_false_r.
        destruct (char_in "$" cur), (Ascii.eqb "$" c); auto.
Qed.

(** A pattern of plain characters matches its own text only. *)
Lemma glob_literal (p s : string) :
  glob (map Lit (list_ascii_of_string p)) s = true <-> s = p.
Proof.
  revert s. induction p as [|c p IH]; intros [|a s]; cbn;
    try (split; [discriminate|discriminate]); [tauto|].
  rewrite andb_true_iff, IH, Ascii.eqb_eq. split.
  - intros [-> ->]. reflexivity.
  - intros H. injection H as -> ->. auto.
Qed.

Lemma match_shadow (filename : string) :
  _match_pattern filename "shadow" = true <-> str_lower filename = "shadow".
Proof. unfold _match_pattern, fnmatch. apply (glob_literal "shadow"). Qed.

End shadow_claims.

Section shadow_findings.
Import Text FileScanner.

(** C5, the statement as written fails: the path [/x/etc/gshadow]
    matches [*shadow*] and the file holds a line with a dollar sign, yet
    the scan yields no finding, because the rule's pattern is the plain
    name [shadow]. *)
Lemma gshadow_is_not_reported :
  fnmatch "/x/etc/gshadow" "*shadow*" = true
  /\ read_text (Examples.with_file "gshadow") "/x/etc/gshadow"
     = Some Examples.shadow_content
  /\ In "root:$6$abc:19000:0:99999:7:::"
       (str_splitlines Examples.shadow_content)
  /\ scan (Examples.with_file "gshadow") "/x" "img" = [].
Proof. repeat split; try reflexivity. right. left. reflexivity. Qed.

(** C5, amended.  The shadow rule applies to the files whose name is
    [shadow] up to case.  For such a file of the scanned tree: when its
    content holds no dollar sign the rule adds no finding; when it holds
    one, the rule adds the summary finding and then one finding per line
    with a dollar sign, in file order; there is at least one such line,
    each of them is included in a finding, and these findings are
    findings of the scan. *)
Theorem shadow_rule_findings (w : World) :
  (forall filename : string,
     _match_pattern filename "shadow" = true
     <-> str_lower filename = "shadow")
  /\ (forall filepath content : string,
        read_text w filepath = Some content ->
        (str_in "$" content = false -> _check_shadow w filepath = [])
        /\ (str_in "$" content = true ->
            _check_shadow w filepath
            = ("Found SHADOW file: " +:+ filepath)
                :: map (fun line => "Shadow content: " +:+ line)
                     (List.filter (fun line => str_in "$" line)
                        (str_splitlines content))
            /\ List.filter (fun line => str_in "$" line)
                 (str_splitlines content) <> []
            /\ forall line : string,
                 In line (str_splitlines content) ->
                 str_in "$" line = true ->
                 exists finding : string,
                   In finding (_check_shadow w filepath)
                   /\ str_in line finding = true))
  /\ (forall (directory repo_name root filename : string)
             (dirs files : list string),
        In (root, dirs, files) (walk w directory) ->
        In filename files ->
        str_lower filename = "shadow" ->
        forall finding : string,
          In finding (_check_shadow w (path_join root filename)) ->
          In finding (scan w directory repo_name)).
Proof.
  split; [exact match_shadow|]. split.
  - intros filepath content Hread. unfold _check_shadow. rewrite Hread.
    split; [intros ->; reflexivity|]. intros Hd. rewrite Hd.
    split; [reflexivity|]. split.
    + rewrite str_in_char in Hd.
      destruct (splitlines_keeps_dollar content EmptyString false Hd)
        as (line & Hin & Hl).
      intros Hnil.
      assert (Hf : In line (List.filter (fun line => str_in "$" line)
                              (str_splitlines content)))
        by (apply filter_In; split; [exact Hin|now rewrite str_in_char]).
      rewrite Hnil in Hf. destruct Hf.
    + intros line Hin Hl.
      exists ("Shadow content: " +:+ line). split.
      * right. apply in_map_iff. exists line. split; [reflexivity|].
        apply filter_In. now split.
      * apply str_in_append.
  - intros directory repo_name root filename dirs files Hwalk Hfile Hname
      finding Hfinding.
    unfold scan. apply in_flat_map.
    exists {| Config.name := "SHADOW"; Config.pattern := "shadow";
              Config.action_type := Config.shadow |}.
    split; [left; reflexivity|].
    unfold scan_check. cbn [Config.pattern Config.action_type].
    change (String.eqb "shadow" ".git/config") with false. cbn iota.
    apply in_flat_map. exists (root, dirs, files).
    split; [exact Hwalk|].
    apply in_flat_map. exists filename. split; [exact Hfile|].
    apply match_shadow in Hname. rewrite Hname. exact Hfinding.
Qed.

Lemma shadow_rule_findings_witness :
  _check_shadow (Examples.with_file "Shadow") "/x/etc/Shadow"
  = ["Found SHADOW file: /x/etc/Shadow";
     "Shadow content: root:$6$abc:19000:0:99999:7:::"]
  /\ In "Shadow content: root:$6$abc:19000:0:99999:7:::"
       (scan (Examples.with_file "Shadow") "/x" "img")
  /\ _check_shadow (Examples.with_file_content "shadow" "root:*:0:0") "/x/etc/shadow"
     = [].
Proof.
  destruct (shadow_rule_findings (Examples.with_file "Shadow"))
    as (_ & Hcheck & Hscan).
  destruct (Hcheck "/x/etc/Shadow" Examples.shadow_content eq_refl)
    as (_ & Hdollar).
  destruct (Hdollar eq_refl) as (Heq & _ & _).
  split; [exact (eq_trans Heq eq_refl)|]. split.
  - apply (Hscan "/x" "img" "/x/etc" "Shadow" [] ["Shadow"]);
      [right; left; reflexivity|left; reflexivity|reflexivity|].
    right. left. reflexivity.
  - exact (proj1 (proj1 (proj2 (shadow_rule_findings
             (Examples.with_file_content "shadow" "root:*:0:0")))
             "/x/etc/shadow" "root:*:0:0" eq_refl) eq_refl).
Defined.

End shadow_findings.

(** ** The per-image pipeline: pull failure and write failure *)

Section pipeline_facts.
Import Text Klepto2.

Lemma written_app (evs evs' : list event) (dir : gmap string ScanResult) :
  written (evs ++ evs') dir = written evs' (written evs dir).
Proof.
  revert dir. induction evs as [|ev evs IH]; intros dir; [reflexivity|].
  destruct ev; cbn [app written]; apply IH.
Qed.

(** Events that are no write leave the output directory as it is. *)
Lemma written_no_write (evs : list event) (dir : gmap string ScanResult) :
  (forall ev, In ev evs -> is_write ev = false) -> written evs dir = dir.
Proof.
  revert dir. induction evs as [|ev evs IH]; intros dir H; [reflexivity|].
  pose proof (H ev (or_introl eq_refl)) as Hev.
  destruct ev; try discriminate; cbn [written];
    apply IH; intros ev' Hin; apply H; now right.
Qed.



(** Tag resolution always ends normally, after at most one tag
    request. *)
Lemma resolve_tag_ok (w : World) (image_name : string) :
  resolve_tag w image_name
  = (fst (resolve_tag w image_name), Ok (resolved w image_name))
  /\ (fst (resolve_tag w image_name) = []
      \/ fst (resolve_tag w image_name) = [HubTags (hub_repo image_name)]).
Proof.
  unfold resolved, resolve_tag.
  destruct (negb (str_in ":" image_name)); [|split; [reflexivity|now left]].
  destruct (_ && _)%bool; [split; [reflexivity|now left]|].
  unfold HubClient.get_best_tag, hub_repo.
  destruct (str_in "/" image_name); cbn [negb];
    (destruct (hub_tags w _) as [| |[|first rest]];
     [split; [reflexivity|now right]..|]);
    (destruct (existsb _ _); [split; [reflexivity|now right]|]);
    cbn; destruct (String.eqb first EmptyString);
    (split; [reflexivity|now right]).
Qed.

Lemma process_image_unfold (cfg : Config.settings) (w : World)
    (image_name : string) (info : json) :
  let ref := resolved w image_name in
  let temp_dir := mkdtemp w ref in
  let image_dir := path_join temp_dir "image_data" in
  let extract_dir := path_join temp_dir "extracted" in
  image_info_of (skopeo_inspect w ref) = Ok info ->
  process_image cfg w image_name
  = (fst (resolve_tag w image_name)
       ++ [SkopeoInspect ref;
           SkopeoPull ref image_dir
             match skopeo_pull w ref image_dir with
             | Ok ok => ok
             | Raise _ => false
             end]
       ++ match skopeo_pull w ref image_dir with
          | Ok true =>
              fst (final_result <-
                     gather w ref temp_dir image_dir extract_dir info ;;
                   persist cfg w ref final_result)
          | _ => []
          end
       ++ [ReleaseTemp temp_dir],
     match skopeo_pull w ref image_dir with
     | Ok true =>
         snd (final_result <-
                gather w ref temp_dir image_dir extract_dir info ;;
              persist cfg w ref final_result)
     | Ok false => Ok None
     | Raise e => Raise e
     end).
Proof.
  intros ref temp_dir image_dir extract_dir Hinfo.
  unfold process_image.
  rewrite (proj1 (resolve_tag_ok w image_name)). fold ref.
  cbn [bind emit]. unfold lift. rewrite Hinfo. cbn [bind].
  fold temp_dir. fold image_dir. fold extract_dir.
  unfold pull_image.
  destruct (skopeo_pull w ref image_dir) as [[|]|e];
    cbn [bind emit ret raise negb].
  - destruct (bind (gather w ref temp_dir image_dir extract_dir info) _)
      as [evs r].
    cbn. reflexivity.
  - cbn. reflexivity.
  - cbn. reflexivity.
Qed.

(** A pull that does not report success ends [process_image] right
    after it. *)
Lemma process_image_stops (cfg : Config.settings) (w : World)
    (image_name : string) (info : json) :
  let ref := resolved w image_name in
  let temp_dir := mkdtemp w ref in
  let image_dir := path_join temp_dir "image_data" in
  image_info_of (skopeo_inspect w ref) = Ok info ->
  skopeo_pull w ref image_dir <> Ok true ->
  process_image cfg w image_name
  = (fst (resolve_tag w image_name)
       ++ [SkopeoInspect ref; SkopeoPull ref image_dir false;
           ReleaseTemp temp_dir],
     match skopeo_pull w ref image_dir with
     | Ok _ => Ok None
     | Raise e => Raise e
     end)
  /\ (forall ev, In ev (fst (process_image cfg w image_name)) ->
        later_stage ev = false)
  /\ (forall dir, written (fst (process_image cfg w image_name)) dir = dir).
Proof.
  intros ref temp_dir image_dir Hinfo Hpull.
  pose proof (process_image_unfold cfg w image_name info Hinfo) as Hrun.
  cbv zeta in Hrun. fold ref temp_dir image_dir in Hrun.
  assert (Hrun' : process_image cfg w image_name
                  = (fst (resolve_tag w image_name)
                       ++ [SkopeoInspect ref; SkopeoPull ref image_dir false;
                           ReleaseTemp temp_dir],
                     match skopeo_pull w ref image_dir with
                     | Ok _ => Ok None
                     | Raise e => Raise e
                     end)).
  { rewrite Hrun.
    destruct (skopeo_pull w ref image_dir) as [[|]|e];
      [now destruct Hpull|reflexivity..]. }
  assert (Hlater : forall ev, In ev (fst (process_image cfg w image_name)) ->
                     later_stage ev = false).
  { rewrite Hrun'. cbn [fst]. intros ev Hin.
    apply in_app_or in Hin as [Hin|Hin].
    - destruct (proj2 (resolve_tag_ok w image_name)) as [He|He];
        rewrite He in Hin; [destruct Hin|].
      destruct Hin as [<-|[]]. reflexivity.
    - destruct Hin as [<-|[<-|[<-|[]]]]; reflexivity. }
  split; [exact Hrun'|]. split; [exact Hlater|].
  intros dir. apply written_no_write. intros ev Hin.
  apply Hlater in Hin. now destruct ev.
Qed.

End pipeline_facts.

Section pipeline_claims.
Import Text Klepto2.

Lemma run_tasks_app (cfg : Config.settings) (w : World)
    (before after : list string) :
  fst (run_tasks cfg w (before ++ after))
  = fst (run_tasks cfg w before) ++ fst (run_tasks cfg w after).
Proof. rewrite !run_tasks_ok. cbn [fst]. apply flat_map_app. Qed.

Lemma run_tasks_cons (cfg : Config.settings) (w : World) (img : string)
    (rest : list string) :
  fst (run_tasks cfg w (img :: rest))
  = fst (task cfg w img) ++ fst (run_tasks cfg w rest).
Proof. rewrite !run_tasks_ok. reflexivity. Qed.

(** A task that writes nothing leaves the artifacts of a run as they
    are without it. *)
Lemma written_without_task (cfg : Config.settings) (w : World)
    (image_name : string) (before after : list string)
    (dir : gmap string ScanResult) :
  (forall dir', written (fst (task cfg w image_name)) dir' = dir') ->
  written (fst (run_tasks cfg w (before ++ image_name :: after))) dir
  = written (fst (run_tasks cfg w (before ++ after))) dir.
Proof.
  intros Hdir.
  rewrite !run_tasks_app, run_tasks_cons, !written_app.
  now rewrite Hdir.
Qed.

(** C3.  The pull reports failure when the copy command exits with an
    error whose output decodes.  When the pull of an image is called
    (the inspection before it ended normally) and reports failure,
    [process_image] returns none right after it: its events are the tag
    request (if any), the inspection, the failed pull and the release of
    the working directory; none belongs to extraction, scanning,
    filtering or persistence, and the output directory is left as it
    was.  In a run, the tasks of the other images are the same with or
    without the failing image, and so are the artifacts written.  A pull
    that raises instead of reporting (the error output does not decode,
    or the command cannot be started) ends [process_image] with that
    exception at the same point and with the same events; the task
    boundary of [run] logs it, and the other images are left as they
    are. *)
Theorem pull_failure_aborts_image (cfg : Config.settings) (w : World)
    (image_name : string) (info : json) :
  let ref := resolved w image_name in
  let temp_dir := mkdtemp w ref in
  let image_dir := path_join temp_dir "image_data" in
  image_info_of (skopeo_inspect w ref) = Ok info ->
  (skopeo_pull w ref image_dir = Ok false
   <-> copy_command w ref image_dir = SkopeoClient.ExitError true)
  /\ (forall e : exn,
        skopeo_pull w ref image_dir = Raise e
        <-> (copy_command w ref image_dir = SkopeoClient.ExitError false
             /\ e = UnicodeDecodeError)
            \/ (copy_command w ref image_dir = SkopeoClient.NotRun
                /\ e = OSError))
  /\ (skopeo_pull w ref image_dir = Ok false ->
      process_image cfg w image_name
      = (fst (resolve_tag w image_name)
           ++ [SkopeoInspect ref; SkopeoPull ref image_dir false;
               ReleaseTemp temp_dir],
         Ok None)
      /\ (forall ev, In ev (fst (process_image cfg w image_name)) ->
            later_stage ev = false)
      /\ (forall dir,
            written (fst (process_image cfg w image_name)) dir = dir)
      /\ (forall (before after : list string)
                 (dir : gmap string ScanResult),
            run_tasks cfg w (before ++ image_name :: after)
            = (fst (run_tasks cfg w before)
                 ++ fst (process_image cfg w image_name)
                 ++ fst (run_tasks cfg w after),
               Ok tt)
            /\ written
                 (fst (run_tasks cfg w (before ++ image_name :: after))) dir
               = written (fst (run_tasks cfg w (before ++ after))) dir))
  /\ (forall e : exn,
        skopeo_pull w ref image_dir = Raise e ->
        process_image cfg w image_name
        = (fst (resolve_tag w image_name)
             ++ [SkopeoInspect ref; SkopeoPull ref image_dir false;
                 ReleaseTemp temp_dir],
           Raise e)
        /\ (forall ev, In ev (fst (process_image cfg w image_name)) ->
              later_stage ev = false)
        /\ (forall dir,
              written (fst (process_image cfg w image_name)) dir = dir)
        /\ (forall (before after : list string)
                   (dir : gmap string ScanResult),
              run_tasks cfg w (before ++ image_name :: after)
              = (fst (run_tasks cfg w before)
                   ++ fst (process_image cfg w image_name)
                   ++ [LogError image_name e]
                   ++ fst (run_tasks cfg w after),
                 Ok tt)
              /\ written
                   (fst (run_tasks cfg w (before ++ image_name :: after)))
                   dir
                 = written (fst (run_tasks cfg w (before ++ after))) dir)).
Proof.
  intros ref temp_dir image_dir Hinfo.
  split; [|split; [|split]].
  - unfold skopeo_pull, SkopeoClient.pull_image.
    destruct (copy_command w ref image_dir) as [out|[|]|]; split;
      congruence.
  - intros e. unfold skopeo_pull, SkopeoClient.pull_image.
    destruct (copy_command w ref image_dir) as [out|[|]|];
      (split;
       [intros H; try discriminate; injection H as <-; auto
       |intros [[H ->]|[H ->]]; try discriminate; reflexivity]).
  - intros Hpull.
    destruct (process_image_stops cfg w image_name info Hinfo)
      as (Hrun & Hlater & Hdir);
      [fold ref temp_dir image_dir; rewrite Hpull; discriminate|].
    fold ref temp_dir image_dir in Hrun. rewrite Hpull in Hrun.
    assert (Htask : fst (task cfg w image_name)
                    = fst (process_image cfg w image_name))
      by (unfold task; rewrite Hrun; reflexivity).
    split; [exact Hrun|]. split; [exact Hlater|]. split; [exact Hdir|].
    intros before after dir. split.
    + rewrite (run_tasks_ok cfg w (before ++ image_name :: after)).
      f_equal. rewrite flat_map_app. cbn [flat_map].
      now rewrite Htask, !run_tasks_ok.
    + apply written_without_task. intros dir'. rewrite Htask. apply Hdir.
  - intros e Hpull.
    destruct (process_image_stops cfg w image_name info Hinfo)
      as (Hrun & Hlater & Hdir);
      [fold ref temp_dir image_dir; rewrite Hpull; discriminate|].
    fold ref temp_dir image_dir in Hrun. rewrite Hpull in Hrun.
    assert (Htask : fst (task cfg w image_name)
                    = fst (process_image cfg w image_name)
                        ++ [LogError image_name e])
      by (unfold task; rewrite Hrun; reflexivity).
    split; [exact Hrun|]. split; [exact Hlater|]. split; [exact Hdir|].
    intros before after dir. split.
    + rewrite (run_tasks_ok cfg w (before ++ image_name :: after)).
      f_equal. rewrite flat_map_app. cbn [flat_map].
      now rewrite Htask, !run_tasks_ok, <- !app_assoc.
    + apply written_without_task. intros dir'.
      rewrite Htask, written_app, Hdir. reflexivity.
Qed.

Lemma pull_failure_aborts_image_witness :
  process_image Config.defaults Examples.one_broken "broken:1"
  = ([SkopeoInspect "broken:1";
      SkopeoPull "broken:1" "/tmp/tmpk2/image_data" false;
      ReleaseTemp "/tmp/tmpk2"],
     Ok None)
  /\ written
       (fst (run_tasks Config.defaults Examples.one_broken
               (["alpine:3"] ++ "broken:1" :: ["nginx:1.25"]))) ∅
     = written
         (fst (run_tasks Config.defaults Examples.one_broken
                 (["alpine:3"] ++ ["nginx:1.25"]))) ∅
  /\ process_image Config.defaults Samples.garbled_pull "broken:1"
     = ([SkopeoInspect "broken:1";
         SkopeoPull "broken:1" "/tmp/tmpk2/image_data" false;
         ReleaseTemp "/tmp/tmpk2"],
        Raise UnicodeDecodeError)
  /\ run_tasks Config.defaults Samples.garbled_pull ([] ++ "broken:1" :: [])
     = ([SkopeoInspect "broken:1";
         SkopeoPull "broken:1" "/tmp/tmpk2/image_data" false;
         ReleaseTemp "/tmp/tmpk2";
         LogError "broken:1" UnicodeDecodeError],
        Ok tt).
Proof.
  pose proof (pull_failure_aborts_image Config.defaults Examples.one_broken
                "broken:1" (JObj []) eq_refl) as (_ & _ & Hfail & _).
  destruct (Hfail eq_refl) as (Hrun & _ & _ & Hothers).
  pose proof (pull_failure_aborts_image Config.defaults Samples.garbled_pull
                "broken:1" (JObj []) eq_refl) as (_ & _ & _ & Hraise).
  destruct (Hraise UnicodeDecodeError eq_refl) as (Hrun' & _ & _ & Hothers').
  split; [exact Hrun|].
  split; [exact (proj2 (Hothers ["alpine:3"] ["nginx:1.25"] ∅))|].
  split; [exact Hrun'|].
  exact (proj1 (Hothers' [] [] ∅)).
Defined.

End pipeline_claims.

Section persist_claims.
Import Text Klepto2.





End persist_claims.

(** ** A whole run *)

Section whole_run.
Import Text Klepto2.

(** Image [nginx] in mode [image]: the pull succeeds, the manifest lists
    two layers that are both on disk, detector A reports one
    allow-listed record and one placeholder record, detector B an empty
    array, and the tree holds no sensitive file. *)
Example run_nginx :
  run Config.defaults Examples.nginx_world ["nginx"] "image"
  = ([Submit "nginx";
      HubTags "library/nginx";
      SkopeoInspect "nginx:latest";
      SkopeoPull "nginx:latest" "/tmp/tmpk2/image_data" true;
      Tar "/tmp/tmpk2/image_data/aaa" "/tmp/tmpk2/extracted";
      Tar "/tmp/tmpk2/image_data/bbb" "/tmp/tmpk2/extracted";
      FileScan "/tmp/tmpk2/extracted";
      Trufflehog "/tmp/tmpk2/extracted" "/tmp/tmpk2/trufflehog.json";
      Gitleaks "/tmp/tmpk2/extracted" "/tmp/tmpk2/gitleaks.json";
      WriteArtifact "/app/output/results_nginx_latest.json"
        {| image := "nginx:latest";
           scan_timestamp := "2024-01-01T00:00:00Z";
           image_metadata := JObj [];
           file_findings := [];
           trufflehog_findings :=
             [FindingFilter.project Examples.record_real];
           gitleaks_findings := JArr [] |};
      ReleaseTemp "/tmp/tmpk2"],
     Ok tt).
Proof. reflexivity. Qed.

End whole_run.

(** * Further properties of the code *)

(** ** Detector-A filter: parsing, shape, idempotence, failure *)

Section filter_extras.
Import Text FindingFilter.

Lemma all_data_parsed (loads : string -> result (option json))
    (lines : list string) :
  (forall line, In line lines -> strip_nonempty line = true ->
     exists parsed, loads line = Ok parsed) ->
  all_data loads lines
  = Ok (flat_map
          (fun line =>
             match loads line with Ok (Some v) => [v] | _ => [] end)
          (List.filter strip_nonempty lines)).
Proof.
  induction lines as [|line lines IH]; intros Hall; [reflexivity|].
  cbn [all_data List.filter].
  rewrite IH by (intros l Hl; apply Hall; now right).
  destruct (strip_nonempty line) eqn:Hs; [|reflexivity].
  destruct (Hall line (or_introl eq_refl) Hs) as (parsed & Hp).
  cbn [flat_map]. rewrite Hp. now destruct parsed.
Qed.

Lemma all_data_raises (loads : string -> result (option json))
    (lines : list string) (e : exn) :
  all_data loads lines = Raise e
  <-> exists before line rest,
        lines = before ++ line :: rest
        /\ strip_nonempty line = true
        /\ loads line = Raise e
        /\ forall l, In l before -> strip_nonempty l = true ->
             exists parsed, loads l = Ok parsed.
Proof.
  induction lines as [|line lines IH].
  - split; [discriminate|].
    intros (before & l & rest & H & _). now destruct before.
  - cbn [all_data]. destruct (strip_nonempty line) eqn:Hs.
    + destruct (loads line) as [parsed|e'] eqn:Hp.
      * split.
        -- intros H.
           destruct (all_data loads lines) as [more|e''] eqn:Hd;
             [discriminate|]. injection H as ->.
           destruct (proj1 IH eq_refl)
             as (before & l & rest & -> & Hl & He & Hb).
           exists (line :: before), l, rest.
           split; [reflexivity|]. split; [exact Hl|]. split; [exact He|].
           intros x [<-|Hx] Hx'; [now exists parsed|now apply Hb].
        -- intros (before & l & rest & H & Hl & He & Hb).
           destruct before as [|b before]; cbn [app] in H;
             injection H as <- ->; [congruence|].
           assert (Hr : all_data loads (before ++ l :: rest) = Raise e).
           { apply IH. exists before, l, rest.
             split; [reflexivity|]. split; [exact Hl|]. split; [exact He|].
             intros x Hx. apply Hb. now right. }
           now rewrite Hr.
      * split.
        -- intros H. injection H as ->. exists [], line, lines.
           split; [reflexivity|]. split; [exact Hs|]. split; [exact Hp|].
           intros l [].
        -- intros (before & l & rest & H & Hl & He & Hb).
           destruct before as [|b before]; cbn [app] in H;
             injection H as <- ->; [congruence|].
           destruct (Hb line (or_introl eq_refl) Hs) as (parsed & Hq).
           congruence.
    + rewrite IH. split.
      * intros (before & l & rest & -> & Hl & He & Hb).
        exists (line :: before), l, rest.
        split; [reflexivity|]. split; [exact Hl|]. split; [exact He|].
        intros x [<-|Hx] Hx'; [congruence|now apply Hb].
      * intros (before & l & rest & H & Hl & He & Hb).
        destruct before as [|b before]; cbn [app] in H;
          injection H as <- ->; [congruence|].
        exists before, l, rest.
        split; [reflexivity|]. split; [exact Hl|]. split; [exact He|].
        intros x Hx. apply Hb. now right.
Qed.

Lemma all_data_blank (loads loads' : string -> result (option json))
    (lines : list string) :
  (forall line, strip_nonempty line = true -> loads line = loads' line) ->
  all_data loads lines = all_data loads' lines.
Proof.
  intros Hsame. induction lines as [|line lines IH]; [reflexivity|].
  cbn [all_data]. rewrite IH.
  destruct (strip_nonempty line) eqn:Hs; [|reflexivity].
  now rewrite (Hsame line Hs).
Qed.

(** X1.  The first loop of [parse_trufflehog_results] gives the parser
    the lines that are not blank, in order, and no other line.  When
    the parser reads each of them, or rejects it as no JSON, the loop
    keeps the values read, in order, and the lines rejected are dropped
    without an error.  Any other exception of the parser is not caught:
    the loop ends with the exception of the first line on which the
    parser raises, and so does [parse_trufflehog_results]. *)
Theorem all_data_keeps_parsed_lines
    (loads : string -> result (option json)) (lines : list string) :
  ((forall line, In line lines -> strip_nonempty line = true ->
      exists parsed, loads line = Ok parsed) ->
   all_data loads lines
   = Ok (flat_map
           (fun line =>
              match loads line with Ok (Some v) => [v] | _ => [] end)
           (List.filter strip_nonempty lines)))
  /\ (forall e : exn,
        all_data loads lines = Raise e
        <-> exists before line rest,
              lines = before ++ line :: rest
              /\ strip_nonempty line = true
              /\ loads line = Raise e
              /\ forall l, In l before -> strip_nonempty l = true ->
                   exists parsed, loads l = Ok parsed)
  /\ (forall loads' : string -> result (option json),
        (forall line, strip_nonempty line = true ->
           loads line = loads' line) ->
        all_data loads lines = all_data loads' lines)
  /\ (forall e : exn,
        all_data loads lines = Raise e ->
        parse_trufflehog_results loads (Lines lines) = Raise e)
  /\ (forall objs : list json,
        all_data loads lines = Ok objs ->
        parse_trufflehog_results loads (Lines lines) = filtered_data objs)
  /\ all_data Samples.sample_loads
       ["real"; Samples.blank_line; "junk"; EmptyString; "real"]
     = Ok [Examples.record_real; Examples.record_real]
  /\ all_data Samples.sample_loads ["real"; "junk"; "deep"; "real"]
     = Raise RecursionError
  /\ parse_trufflehog_results Samples.sample_loads
       (Lines ["real"; "junk"; "deep"; "real"])
     = Raise RecursionError
  /\ all_data (fun _ => Raise RecursionError)
       [Samples.blank_line; EmptyString; " "]
     = Ok [].
Proof.
  split; [apply all_data_parsed|]. split; [intros e; apply all_data_raises|].
  split; [intros loads'; apply all_data_blank|].
  split; [|split; [|repeat split]].
  - intros e H. cbn [parse_trufflehog_results]. now rewrite H.
  - intros objs H. cbn [parse_trufflehog_results]. now rewrite H.
Qed.

Lemma all_data_keeps_parsed_lines_witness :
  all_data Samples.sample_loads ["junk"; "real"; Samples.blank_line]
  = Ok [Examples.record_real]
  /\ parse_trufflehog_results Samples.sample_loads
       (Lines ["junk"; "real"; Samples.blank_line])
     = Ok [project Examples.record_real].
Proof.
  assert (Hall : forall line,
            In line ["junk"; "real"; Samples.blank_line] ->
            strip_nonempty line = true ->
            exists parsed, Samples.sample_loads line = Ok parsed).
  { intros line [<-|[<-|[<-|[]]]] Hs; try discriminate;
      eexists; reflexivity. }
  pose proof (all_data_keeps_parsed_lines Samples.sample_loads
                ["junk"; "real"; Samples.blank_line]) as (Hok & _ & _ & _ & Hpass & _).
  split; [exact (eq_trans (Hok Hall) eq_refl)|].
  exact (eq_trans (Hpass [Examples.record_real]
                     (eq_trans (Hok Hall) eq_refl)) eq_refl).
Defined.

(** A record that is kept is an object; its projection reads back the
    same type and raw value. *)
Lemma retained_is_object (obj : json) :
  retained obj = true -> exists d, obj = JObj d.
Proof. destruct obj; try discriminate. eauto. Qed.

Lemma retained_project (d : list (string * json)) :
  retained (project (JObj d)) = retained (JObj d).
Proof.
  unfold retained, project, projection, detector_type_of, raw_text.
  cbn [dict_get dict_get_or String.eqb Ascii.eqb Bool.eqb].
  unfold dict_get_or.
  destruct (dict_get "Raw" d) as [[| | |s| |]|]; reflexivity.
Qed.

Lemma project_project (d : list (string * json)) :
  project (project (JObj d)) = project (JObj d).
Proof. reflexivity. Qed.

(** X2.  Whenever the filter ends normally, its result is no longer than
    its input and every element of it is an object with exactly the
    four keys [SourceMetadata], [DetectorName], [DetectorType] and
    [Raw], whose type is allow-listed and whose raw text holds no
    denylist term. *)
Theorem filter_output_shape (objs out : list json) :
  filtered_data objs = Ok out ->
  (length out <= length objs)%nat
  /\ Forall
       (fun o =>
          (exists source_meta detector_name detector_type raw,
             o = JObj [ ("SourceMetadata", source_meta);
                        ("DetectorName", detector_name);
                        ("DetectorType", detector_type);
                        ("Raw", raw) ]
             /\ in_int_list detector_type Config.DESIRED_DETECTOR_TYPES
                = true)
          /\ has_undesired_term (raw_text o) = false)
       out.
Proof.
  intros Hok. rewrite (filtered_data_sound objs out Hok). split.
  - rewrite length_map. apply filter_length_le.
  - apply List.Forall_forall. intros o Hin.
    apply in_map_iff in Hin as (obj & <- & Hobj).
    apply filter_In in Hobj as [_ Hret].
    destruct (retained_is_object obj Hret) as [d ->].
    rewrite <- retained_project in Hret.
    unfold retained in Hret. apply andb_true_iff in Hret as [Hty Hterms].
    split.
    + do 4 eexists. split; [reflexivity|]. exact Hty.
    + rewrite has_undesired_term_spec. now rewrite Hterms.
Qed.

Lemma filter_output_shape_witness :
  (length [project Examples.record_real]
   <= length [Examples.record_real; Examples.record_placeholder])%nat.
Proof.
  exact (proj1 (filter_output_shape
                  [Examples.record_real; Examples.record_placeholder]
                  [project Examples.record_real] eq_refl)).
Defined.

End filter_extras.

Section filter_more.
Import Text FindingFilter.

(** A record that was appended passes the loop again, unchanged. *)
Lemma filter_one_again (obj p : json) :
  filter_one obj = Ok (Some p) -> filter_one p = Ok (Some p).
Proof.
  destruct obj as [| | | |l|d]; try discriminate.
  unfold filter_one at 1.
  remember (dict_get_or "Raw" (JStr EmptyString) d) as raw eqn:Hraw.
  remember (dict_get_or "DetectorType" JNull d) as dt eqn:Hdt.
  destruct (in_int_list dt _) eqn:Hty; [|discriminate].
  assert (Hp : forall raw',
            filter_one (projection d dt raw')
            = if truthy raw' then
                match raw' with
                | JStr s => if has_undesired_term s then Ok None
                            else Ok (Some (projection d dt raw'))
                | _ => Raise AttributeError
                end
              else Ok (Some (projection d dt raw'))).
  { intros raw'. unfold filter_one, projection.
    cbn [dict_get dict_get_or String.eqb Ascii.eqb Bool.eqb].
    now rewrite Hty. }
  destruct (truthy raw) eqn:Ht.
  - destruct raw as [| | |s| |]; try discriminate.
    destruct (has_undesired_term s) eqn:Hu; [discriminate|].
    intros [= <-]. now rewrite Hp, Ht, Hu.
  - intros [= <-]. now rewrite Hp, Ht.
Qed.

(** X3.  Filtering is idempotent: the result of a filter that ended
    normally passes the filter again without an error and unchanged. *)
Theorem filter_idempotent (objs out : list json) :
  filtered_data objs = Ok out -> filtered_data out = Ok out.
Proof.
  revert out. induction objs as [|obj objs IH]; intros out.
  - now intros [= <-].
  - cbn [filtered_data].
    destruct (filter_one obj) as [kept|] eqn:Hone; [|discriminate].
    destruct (filtered_data objs) as [rest|]; [|discriminate].
    specialize (IH rest eq_refl). intros [= <-].
    destruct kept as [p|]; [|exact IH].
    cbn [filtered_data]. now rewrite (filter_one_again obj p Hone), IH.
Qed.

Lemma filter_idempotent_witness :
  filtered_data [project Examples.record_real]
  = Ok [project Examples.record_real].
Proof.
  exact (filter_idempotent
           [Examples.record_real; Examples.record_placeholder;
            Examples.record_unknown]
           [project Examples.record_real] eq_refl).
Defined.

(** X4.  The filter can only end with [AttributeError], and only when
    some parsed value is not a record: a value that is no object, or an
    object whose [Raw] is present and not a string.  An allow-listed
    object with a non-zero number as [Raw] does raise it. *)
Theorem filter_raises_only_on_non_records (objs : list json) (e : exn) :
  filtered_data objs = Raise e ->
  e = AttributeError
  /\ exists obj, In obj objs /\ is_record obj = false.
Proof.
  induction objs as [|obj objs IH]; [discriminate|].
  cbn [filtered_data].
  destruct (is_record obj) eqn:Hrec.
  - rewrite (filter_one_record obj Hrec).
    destruct (filtered_data objs) as [rest|e'] eqn:Hrest; [discriminate|].
    intros [= <-]. destruct (IH eq_refl) as (He & o & Hin & Ho).
    split; [exact He|]. exists o. split; [now right|exact Ho].
  - destruct (filter_one obj) as [kept|e'] eqn:Hone.
    + destruct (filtered_data objs) as [rest|e''] eqn:Hrest; [discriminate|].
      intros [= <-]. destruct (IH eq_refl) as (He & o & Hin & Ho).
      split; [exact He|]. exists o. split; [now right|exact Ho].
    + intros [= <-]. split.
      * clear IH Hrec. unfold filter_one in Hone.
        destruct obj as [| | | |l|d]; try (now injection Hone as <-).
        destruct (in_int_list _ _); [|discriminate].
        destruct (truthy _); [|discriminate].
        destruct (dict_get_or "Raw" _ d) as [| | |s| |];
          try (now injection Hone as <-).
        destruct (has_undesired_term s); discriminate.
      * exists obj. split; [now left|exact Hrec].
Qed.

Lemma filter_raises_only_on_non_records_witness :
  AttributeError = AttributeError
  /\ exists obj,
       In obj [Examples.record_real;
               JObj [("DetectorType", JNum 2); ("Raw", JNum 5)]]
       /\ FindingFilter.is_record obj = false.
Proof.
  exact (filter_raises_only_on_non_records
           [Examples.record_real;
            JObj [("DetectorType", JNum 2); ("Raw", JNum 5)]]
           AttributeError eq_refl).
Defined.

End filter_more.

(** ** Tag lookup and tag resolution *)

Section tag_extras.
Import Text Klepto2.

(** X5.  [get_best_tag] makes one request, for the repository under
    [library/] when the name has no slash.  A tag it returns is one of
    the returned tags: [latest], or the first one when [latest] is not
    among them.  It returns none exactly when the request failed, the
    repository was not found or no tag was returned. *)
Theorem best_tag_is_a_returned_tag (w : World) (repo_name : string) :
  fst (HubClient.get_best_tag w repo_name) = [HubTags (hub_repo repo_name)]
  /\ (forall t : string,
        snd (HubClient.get_best_tag w repo_name) = Ok (Some t) ->
        exists names,
          hub_tags w (hub_repo repo_name) = Results names
          /\ In t names
          /\ (t = "latest"
              \/ (~ In "latest" names /\ exists rest, names = t :: rest)))
  /\ (snd (HubClient.get_best_tag w repo_name) = Ok None
      <-> hub_tags w (hub_repo repo_name) = RequestFailed
          \/ hub_tags w (hub_repo repo_name) = NotFound
          \/ hub_tags w (hub_repo repo_name) = Results []).
Proof.
  assert (Hshape :
    HubClient.get_best_tag w repo_name
    = ([HubTags (hub_repo repo_name)],
       Ok match hub_tags w (hub_repo repo_name) with
          | Results (first :: rest) =>
              if existsb (String.eqb "latest") (first :: rest)
              then Some "latest" else Some first
          | _ => None
          end)).
  { unfold HubClient.get_best_tag, hub_repo.
    destruct (str_in "/" repo_name); cbn [negb];
      destruct (hub_tags w _) as [| |[|first rest]]; reflexivity. }
  rewrite Hshape. cbn [fst snd]. split; [reflexivity|]. split.
  - intros t Ht.
    destruct (hub_tags w (hub_repo repo_name)) as [| |[|first rest]];
      try discriminate.
    exists (first :: rest). split; [reflexivity|].
    destruct (existsb (String.eqb "latest") (first :: rest)) eqn:Hl;
      injection Ht as <-.
    + apply existsb_latest in Hl. auto.
    + split; [now left|]. right. split; [|now exists rest].
      intros Hin. apply existsb_latest in Hin. congruence.
  - destruct (hub_tags w (hub_repo repo_name)) as [| |[|first rest]];
      try (split; auto; fail).
    split.
    + destruct (existsb _ _); discriminate.
    + intros [H|[H|H]]; discriminate.
Qed.

Lemma best_tag_is_a_returned_tag_witness :
  exists names,
    hub_tags (Examples.with_tags (Results ["v2"; "v1"])) (hub_repo "myrepo")
    = Results names
    /\ In "v2" names
    /\ ("v2" = "latest"
        \/ (~ In "latest" names /\ exists rest, names = "v2" :: rest)).
Proof.
  exact (proj1 (proj2 (best_tag_is_a_returned_tag
                  (Examples.with_tags (Results ["v2"; "v1"])) "myrepo"))
           "v2" eq_refl).
Defined.

Lemma startswith_append (s rest : string) : startswith s (s +:+ rest) = true.
Proof.
  induction s as [|c s IH]; [reflexivity|].
  simpl. now rewrite Ascii.eqb_refl.
Qed.

Lemma str_in_starts (x s : string) : startswith x s = true -> str_in x s = true.
Proof.
  destruct s; cbn [str_in]; intros ->; reflexivity.
Qed.

Lemma str_in_middle (x before rest : string) :
  str_in x (before +:+ x +:+ rest) = true.
Proof.
  induction before as [|c p IH].
  - change (str_in x (x +:+ rest) = true).
    apply str_in_starts, startswith_append.
  - simpl. rewrite IH. apply orb_true_r.
Qed.

(** X6.  The reference [process_image] works on always carries a tag
    separator and starts with the identifier it was given; an identifier
    that already holds a tag is left as it is without any tag request,
    so resolving a resolved reference changes nothing. *)
Theorem resolved_reference_carries_tag (w : World) (image_name : string) :
  str_in ":" (resolved w image_name) = true
  /\ startswith image_name (resolved w image_name) = true
  /\ (str_in ":" image_name = true ->
      resolve_tag w image_name = ([], Ok image_name))
  /\ resolve_tag w (resolved w image_name)
     = ([], Ok (resolved w image_name)).
Proof.
  assert (Hkeep : forall n, str_in ":" n = true ->
                    resolve_tag w n = ([], Ok n))
    by (intros n Hn; unfold resolve_tag; now rewrite Hn).
  assert (Hcases : resolved w image_name = image_name
                   /\ str_in ":" image_name = true
                   \/ exists t, resolved w image_name
                                = image_name +:+ ":" +:+ t).
  { unfold resolved. destruct (str_in ":" image_name) eqn:Hc.
    - left. now rewrite (Hkeep image_name Hc).
    - right.
      destruct ((1 <? Z.of_nat (length (str_split "/" image_name)))
                && str_in "." (hd EmptyString (str_split "/" image_name)))%bool
        eqn:Hreg.
      + exists "latest". unfold resolve_tag. now rewrite Hc, Hreg.
      + rewrite (resolve_tag_lookup w image_name Hc Hreg). eauto. }
  assert (Htag : str_in ":" (resolved w image_name) = true).
  { destruct Hcases as [[-> Hc] | [t ->]]; [exact Hc|].
    apply (str_in_middle ":" image_name t). }
  split; [exact Htag|]. split; [|split; [exact (Hkeep image_name)|]].
  - destruct Hcases as [[-> _] | [t ->]].
    + apply startswith_refl.
    + apply startswith_append.
  - apply Hkeep, Htag.
Qed.

End tag_extras.

(** ** Artifact names and registry-qualified identifiers *)

Section naming_extras.
Import Text Klepto2.

Lemma char_in_str_map_underscore (c : ascii) (s : string) :
  is_separator c = true -> c <> "_"%char ->
  char_in c (str_map underscore s) = false.
Proof.
  intros Hsep Hne. induction s as [|x s IH]; [reflexivity|].
  cbn [str_map char_in]. rewrite IH, orb_false_r.
  apply Ascii.eqb_neq. unfold underscore.
  destruct (is_separator x) eqn:Hx; [exact Hne|].
  intros <-. congruence.
Qed.

Lemma length_str_map (f : ascii -> ascii) (s : string) :
  String.length (str_map f s) = String.length s.
Proof. induction s as [|x s IH]; cbn; [reflexivity|now rewrite IH]. Qed.

(** X7.  The sanitized name of a reference holds neither [/] nor [:], is
    as long as the reference, and sanitizing it again changes nothing;
    the artifact is therefore a file directly under the output
    directory, whose name holds no [/]. *)
Theorem safe_name_has_no_separator (cfg : Config.settings)
    (image_name : string) :
  str_in "/" (safe_name image_name) = false
  /\ str_in ":" (safe_name image_name) = false
  /\ String.length (safe_name image_name) = String.length image_name
  /\ safe_name (safe_name image_name) = safe_name image_name
  /\ exists file_name : string,
       output_file cfg image_name
       = path_join (Config.OUTPUT_DIR cfg) file_name
       /\ str_in "/" file_name = false.
Proof.
  rewrite !str_in_char, !safe_name_map.
  assert (Hslash : char_in "/" (str_map underscore image_name) = false)
    by (apply char_in_str_map_underscore; [reflexivity|discriminate]).
  split; [exact Hslash|]. split; [|split; [|split]].
  - apply char_in_str_map_underscore; [reflexivity|discriminate].
  - apply length_str_map.
  - rewrite str_map_map. apply str_map_ext. intros c. unfold underscore.
    destruct (is_separator c) eqn:Hc; [reflexivity|now rewrite Hc].
  - exists ("results_" +:+ safe_name image_name +:+ ".json").
    split; [reflexivity|].
    rewrite str_in_char, !char_in_append, safe_name_map, Hslash.
    reflexivity.
Qed.

(** Splitting at a separator: the first piece is what stands before the
    first separator. *)
Lemma str_split_no_sep (sep : ascii) (s : string) :
  char_in sep s = false -> str_split sep s = [s].
Proof.
  induction s as [|c s IH]; [reflexivity|].
  cbn [char_in str_split]. intros H. apply orb_false_iff in H as [Hc Hs].
  rewrite Ascii.eqb_sym, Hc, (IH Hs). reflexivity.
Qed.

Lemma str_split_nonempty (sep : ascii) (s : string) : str_split sep s <> [].
Proof.
  destruct s as [|c s]; [discriminate|]. cbn [str_split].
  destruct (Ascii.eqb c sep); [discriminate|].
  destruct (str_split sep s); discriminate.
Qed.

Lemma str_split_at_first (sep : ascii) (host rest : string) :
  char_in sep host = false ->
  str_split sep (host +:+ String sep rest) = host :: str_split sep rest.
Proof.
  induction host as [|c host IH]; intros H.
  - change (str_split sep (String sep rest)
            = EmptyString :: str_split sep rest).
    cbn [str_split]. now rewrite Ascii.eqb_refl.
  - cbn [char_in] in H. apply orb_false_iff in H as [Hc Hs].
    change (str_split sep (String c (host +:+ String sep rest))
            = String c host :: str_split sep rest).
    cbn [str_split]. rewrite Ascii.eqb_sym, Hc, (IH Hs). reflexivity.
Qed.

Lemma str_split_first_sep (sep : ascii) (s : string) :
  char_in sep s = true ->
  exists host rest,
    s = host +:+ String sep rest /\ char_in sep host = false.
Proof.
  induction s as [|c s IH]; [discriminate|].
  cbn [char_in]. destruct (Ascii.eqb sep c) eqn:Hc.
  - intros _. apply Ascii.eqb_eq in Hc. subst c.
    exists EmptyString, s. split; reflexivity.
  - intros H. destruct (IH H) as (host & rest & -> & Hhost).
    exists (String c host), rest. split; [reflexivity|].
    cbn [char_in]. now rewrite Hc.
Qed.

(** X8.  An identifier counts as registry-qualified (no tag lookup, and
    a literal image in mode [mixed]) exactly when it has a slash and the
    part before its first slash holds a dot. *)
Theorem registry_qualified_iff_dotted_host (image_name : string) :
  registry_qualified image_name
  <-> exists host rest : string,
        image_name = host +:+ "/" +:+ rest
        /\ str_in "/" host = false
        /\ str_in "." host = true.
Proof.
  unfold registry_qualified. split.
  - intros [Hlen Hdot].
    destruct (char_in "/" image_name) eqn:Hs.
    + destruct (str_split_first_sep "/" image_name Hs)
        as (host & rest & -> & Hhost).
      rewrite (str_split_at_first "/" host rest Hhost) in Hdot.
      exists host, rest. rewrite str_in_char. auto.
    + rewrite (str_split_no_sep "/" image_name Hs) in Hlen.
      cbn in Hlen. lia.
  - intros (host & rest & -> & Hhost & Hdot). rewrite str_in_char in Hhost.
    change (host +:+ "/" +:+ rest) with (host +:+ String "/" rest).
    rewrite (str_split_at_first "/" host rest Hhost). split; [|exact Hdot].
    cbn [length]. pose proof (str_split_nonempty "/" rest) as Hne.
    destruct (str_split "/" rest); [contradiction|cbn; lia].
Qed.

End naming_extras.

(** ** Layer extraction along the manifest *)

Section extractor_extras.
Import Text LayerExtractor.

Lemma collect_layers_well_formed (w : World) (image_dir : string)
    (layers : list json) (files : list string) :
  Forall (fun layer => digest_of layer <> None) layers ->
  collect_layers w image_dir layers files
  = files
      ++ flat_map
           (fun layer =>
              match digest_of layer with
              | Some digest => candidate w image_dir digest
              | None => []
              end)
           layers.
Proof.
  revert files. induction layers as [|layer rest IH]; intros files Hall.
  - cbn. now rewrite app_nil_r.
  - apply List.Forall_cons_iff in Hall as [Hl Hrest].
    destruct layer as [| | | |l|d]; try (now destruct Hl).
    cbn [collect_layers flat_map]. unfold digest_of in *. unfold candidate.
    destruct (dict_get_or "digest" (JStr EmptyString) d)
      as [| | |digest| |]; try (now destruct Hl).
    destruct (path_exists w (path_join image_dir (str_replace _ _ digest))).
    + rewrite (IH _ Hrest), <- app_assoc. reflexivity.
    + destruct (path_exists w (path_join image_dir digest)).
      * rewrite (IH _ Hrest), <- app_assoc. reflexivity.
      * rewrite (IH _ Hrest). reflexivity.
Qed.

(** X9.  When the manifest is an object whose layers are objects with a
    string digest, the files extracted follow the manifest order; for
    each layer the name without the [sha256:] prefix is preferred to the
    full digest and a layer with neither on disk is passed over.  When
    at least one file is found this way, [tar] runs on these files only
    and the directory listing is not used. *)
Theorem extraction_follows_manifest (w : World)
    (image_dir extract_root : string) (manifest : list (string * json))
    (layers : list json) :
  path_exists w (path_join image_dir "manifest.json") = true ->
  read_json w (path_join image_dir "manifest.json") = Json (JObj manifest) ->
  dict_get_or "layers" (JArr []) manifest = JArr layers ->
  Forall (fun layer => digest_of layer <> None) layers ->
  let found :=
    flat_map
      (fun layer =>
         match digest_of layer with
         | Some digest => candidate w image_dir digest
         | None => []
         end)
      layers in
  manifest_files w image_dir = found
  /\ (found <> [] ->
      extract_image w image_dir extract_root
      = (map (fun filename => Tar (path_join image_dir filename) extract_root)
           found,
         Ok tt)).
Proof.
  intros Hex Hread Hlayers Hall found.
  assert (Hm : manifest_files w image_dir = found).
  { unfold manifest_files. rewrite Hex, Hread, Hlayers. cbn [py_iter].
    now rewrite (collect_layers_well_formed w image_dir layers [] Hall). }
  split; [exact Hm|]. intros Hne.
  unfold extract_image, files_to_extract. rewrite Hm.
  destruct found; [contradiction|reflexivity].
Qed.

Lemma extraction_follows_manifest_witness :
  extract_image Examples.nginx_world "/tmp/tmpk2/image_data"
    "/tmp/tmpk2/extracted"
  = ([Tar "/tmp/tmpk2/image_data/aaa" "/tmp/tmpk2/extracted";
      Tar "/tmp/tmpk2/image_data/bbb" "/tmp/tmpk2/extracted"],
     Ok tt).
Proof.
  refine (proj2 (extraction_follows_manifest Examples.nginx_world
            "/tmp/tmpk2/image_data" "/tmp/tmpk2/extracted"
            [("layers",
              JArr [JObj [("digest", JStr "sha256:aaa")];
                    JObj [("digest", JStr "sha256:bbb")]])]
            [JObj [("digest", JStr "sha256:aaa")];
             JObj [("digest", JStr "sha256:bbb")]]
            eq_refl eq_refl eq_refl _) _).
  - repeat constructor; discriminate.
  - discriminate.
Defined.

(** X10.  A layer entry that is no object, or whose digest is no string,
    ends the loop over the layers: the files found before it are kept,
    the layers after it are never looked at, and when a file was found
    before it the fallback to the directory listing does not run. *)
Theorem malformed_layer_ends_the_loop (w : World) (image_dir : string)
    (good rest : list json) (bad : json) (files : list string) :
  digest_of bad = None ->
  collect_layers w image_dir (good ++ bad :: rest) files
  = collect_layers w image_dir good files
  /\ (forall manifest : list (string * json),
        path_exists w (path_join image_dir "manifest.json") = true ->
        read_json w (path_join image_dir "manifest.json")
        = Json (JObj manifest) ->
        dict_get_or "layers" (JArr []) manifest
        = JArr (good ++ bad :: rest) ->
        collect_layers w image_dir good [] <> [] ->
        files_to_extract w image_dir = collect_layers w image_dir good []).
Proof.
  intros Hbad.
  assert (Hstop : forall fs,
            collect_layers w image_dir (good ++ bad :: rest) fs
            = collect_layers w image_dir good fs).
  { induction good as [|layer good IH]; intros fs.
    - cbn [app collect_layers]. unfold digest_of in Hbad.
      destruct bad as [| | | |l|d]; try reflexivity.
      destruct (dict_get_or "digest" (JStr EmptyString) d);
        try reflexivity; discriminate.
    - cbn [app collect_layers].
      destruct layer as [| | | |l|d]; try reflexivity.
      destruct (dict_get_or "digest" (JStr EmptyString) d);
        try reflexivity.
      destruct (path_exists w _); [apply IH|].
      destruct (path_exists w _); apply IH. }
  split; [apply Hstop|].
  intros manifest Hex Hread Hlayers Hne.
  unfold files_to_extract, manifest_files.
  rewrite Hex, Hread, Hlayers. cbn [py_iter]. rewrite Hstop.
  destruct (collect_layers w image_dir good []); [contradiction|reflexivity].
Qed.

Lemma malformed_layer_ends_the_loop_witness :
  collect_layers Examples.nginx_world "/tmp/tmpk2/image_data"
    ([JObj [("digest", JStr "sha256:aaa")]]
       ++ JStr "sha256:bbb" :: [JObj [("digest", JStr "sha256:bbb")]]) []
  = ["aaa"].
Proof.
  exact (proj1 (malformed_layer_ends_the_loop Examples.nginx_world
                  "/tmp/tmpk2/image_data"
                  [JObj [("digest", JStr "sha256:aaa")]]
                  [JObj [("digest", JStr "sha256:bbb")]]
                  (JStr "sha256:bbb") [] eq_refl)).
Defined.

Lemma replace_no_occurrence (old new s : string) :
  str_in old s = false -> replace_from old new O s = s.
Proof.
  induction s as [|c s IH]; [reflexivity|].
  cbn [str_in]. intros H. apply orb_false_iff in H as [Hst Hs].
  cbn [replace_from]. now rewrite Hst, (IH Hs).
Qed.

Lemma replace_skip (old new p s : string) :
  replace_from old new (String.length p) (p +:+ s) = replace_from old new O s.
Proof.
  induction p as [|c p IH].
  - destruct s; reflexivity.
  - exact IH.
Qed.

(** X11.  Removing [sha256:] from a digest leaves a digest without that
    text as it is, and takes the prefix off a digest that starts with
    it; so a layer declared as [sha256:<hash>] whose blob is stored
    under [<hash>] is extracted from that blob. *)
Theorem digest_prefix_is_stripped (w : World) (image_dir hash : string) :
  str_in "sha256:" hash = false ->
  str_replace "sha256:" EmptyString hash = hash
  /\ str_replace "sha256:" EmptyString ("sha256:" +:+ hash) = hash
  /\ (path_exists w (path_join image_dir hash) = true ->
      collect_layers w image_dir
        [JObj [("digest", JStr ("sha256:" +:+ hash))]] []
      = [hash]).
Proof.
  intros Hno.
  assert (H1 : str_replace "sha256:" EmptyString hash = hash)
    by (apply replace_no_occurrence, Hno).
  assert (H2 : str_replace "sha256:" EmptyString ("sha256:" +:+ hash) = hash).
  { unfold str_replace.
    change ("sha256:" +:+ hash) with (String "s" ("ha256:" +:+ hash)).
    cbn [replace_from]. 
    change (startswith "sha256:" (String "s" ("ha256:" +:+ hash)))
      with (startswith "" hash).
    cbn [startswith].
    change (Nat.pred (String.length "sha256:")) with (String.length "ha256:").
    rewrite replace_skip. exact H1. }
  split; [exact H1|]. split; [exact H2|].
  intros Hex. cbn [collect_layers dict_get_or dict_get String.eqb Ascii.eqb
                     Bool.eqb].
  now rewrite H2, Hex.
Qed.

Lemma digest_prefix_is_stripped_witness :
  str_replace "sha256:" EmptyString "sha256:4f4fb700ef54" = "4f4fb700ef54".
Proof.
  exact (proj1 (proj2 (digest_prefix_is_stripped Examples.quiet
                         "/tmp/tmpk2/image_data" "4f4fb700ef54" eq_refl))).
Defined.

End extractor_extras.

(** ** File pattern scanner: which names the rules match *)

Section scanner_extras.
Import Text FileScanner.

Lemma tokenize_plain (p : string) :
  plain p = true ->
  tokenize Outside p = map Lit (list_ascii_of_string p).
Proof.
  induction p as [|c p IH]; [reflexivity|].
  cbn [plain tokenize list_ascii_of_string map]. intros H.
  apply andb_true_iff in H as [H Hp].
  apply andb_true_iff in H as [H H3].
  apply andb_true_iff in H as [H1 H2].
  apply negb_true_iff in H1, H2, H3.
  now rewrite H1, H2, H3, (IH Hp).
Qed.

(** X12.  A pattern that holds no wildcard and no bracket matches a file
    exactly when the file name equals the pattern up to case; the
    patterns of all rules except SSH KEY and PPK are of this kind (that
    of GIT CONFIG too, which [scan] does not match against file
    names). *)
Theorem plain_pattern_matches_exact_name :
  (forall filename pattern : string,
     plain (str_lower pattern) = true ->
     _match_pattern filename pattern = true
     <-> str_lower filename = str_lower pattern)
  /\ (forall check : Config.check,
        In check Config.SENSITIVE_FILES ->
        Config.pattern check <> "*id_[rd]sa" ->
        Config.pattern check <> "*.ppk" ->
        forall filename : string,
          _match_pattern filename (Config.pattern check) = true
          <-> str_lower filename = Config.pattern check).
Proof.
  assert (Hplain : forall filename pattern : string,
            plain (str_lower pattern) = true ->
            _match_pattern filename pattern = true
            <-> str_lower filename = str_lower pattern).
  { intros filename pattern Hp. unfold _match_pattern, fnmatch.
    rewrite (tokenize_plain _ Hp). apply glob_literal. }
  split; [exact Hplain|].
  intros check Hin Hssh Hppk filename.
  unfold Config.SENSITIVE_FILES in Hin. cbn [In] in Hin.
  repeat (destruct Hin as [<-|Hin];
          [cbn [Config.pattern] in *;
           first [ now destruct Hssh
                 | now destruct Hppk
                 | match goal with
                   | |- _match_pattern _ ?p = true <-> _ =>
                       exact (Hplain filename p eq_refl)
                   end ]|]).
  destruct Hin.
Qed.

Lemma glob_star (ts : list token) (s : string) :
  glob (Star :: ts) s = true
  <-> exists before rest, s = before +:+ rest /\ glob ts rest = true.
Proof.
  induction s as [|c s IH].
  - cbn [glob]. rewrite orb_false_r. split.
    + intros H. exists EmptyString, EmptyString. auto.
    + intros (before & rest & Heq & H).
      destruct before; [|discriminate].
      change (EmptyString = rest) in Heq. now subst rest.
  - change (glob (Star :: ts) (String c s))
      with (glob ts (String c s) || glob (Star :: ts) s)%bool.
    rewrite orb_true_iff, IH. split.
    + intros [H | (before & rest & -> & H)].
      * exists EmptyString, (String c s). auto.
      * exists (String c before), rest. auto.
    + intros (before & rest & Heq & H). destruct before as [|b before].
      * change (String c s = rest) in Heq. subst rest. now left.
      * change (String c s = String b (before +:+ rest)) in Heq.
        injection Heq as -> ->. right. eauto.
Qed.

Lemma glob_lit (c : ascii) (ts : list token) (s : string) :
  glob (Lit c :: ts) s = true
  <-> exists rest, s = String c rest /\ glob ts rest = true.
Proof.
  destruct s as [|a s]; cbn [glob].
  - split; [discriminate|]. intros (rest & H & _). discriminate.
  - rewrite andb_true_iff, Ascii.eqb_eq. split.
    + intros [-> H]. eauto.
    + intros (rest & Heq & H). injection Heq as -> ->. auto.
Qed.

(** X13.  The PPK rule matches the names that end with [.ppk] and the
    SSH KEY rule the names that end with [id_rsa] or [id_dsa], both up
    to case. *)
Theorem wildcard_rules_match_suffix (filename : string) :
  (_match_pattern filename "*.ppk" = true
   <-> exists before, str_lower filename = before +:+ ".ppk")
  /\ (_match_pattern filename "*id_[rd]sa" = true
      <-> exists before,
            str_lower filename = before +:+ "id_rsa"
            \/ str_lower filename = before +:+ "id_dsa").
Proof.
  unfold _match_pattern, fnmatch. split.
  - change (tokenize Outside (str_lower "*.ppk"))
      with (Star :: map Lit (list_ascii_of_string ".ppk")).
    rewrite glob_star. split.
    + intros (before & rest & Heq & H). apply glob_literal in H.
      subst rest. eauto.
    + intros (before & Heq). exists before, ".ppk".
      split; [exact Heq|]. now apply glob_literal.
  - change (tokenize Outside (str_lower "*id_[rd]sa"))
      with [Star; Lit "i"; Lit "d"; Lit "_"; Class false ["r"; "d"]%char;
            Lit "s"; Lit "a"].
    rewrite glob_star. split.
    + intros (before & rest & Heq & H). exists before.
      apply glob_lit in H as (r1 & -> & H).
      apply glob_lit in H as (r2 & -> & H).
      apply glob_lit in H as (r3 & -> & H).
      destruct r3 as [|a r4]; [discriminate|]. cbn [glob] in H.
      apply andb_true_iff in H as [Hc H].
      apply (glob_literal "sa") in H. subst r4.
      cbn in Hc. rewrite orb_false_r in Hc.
      apply orb_true_iff in Hc as [Hc|Hc]; apply Ascii.eqb_eq in Hc;
        subst a; auto.
    + intros (before & [Heq|Heq]).
      * exists before, "id_rsa". split; [exact Heq|reflexivity].
      * exists before, "id_dsa". split; [exact Heq|reflexivity].
Qed.

Lemma flat_map_nil {A B} (f : A -> list B) (l : list A) :
  (forall x, In x l -> f x = []) -> flat_map f l = [].
Proof.
  induction l as [|x l IH]; intros H; [reflexivity|].
  cbn [flat_map]. rewrite (H x (or_introl eq_refl)), IH; [reflexivity|].
  intros y Hy. apply H. now right.
Qed.

(** X14.  Over a tree with no [.git] directory and no file whose name
    matches the pattern of a rule, the scan yields no finding. *)
Theorem scan_reports_nothing_without_match (w : World)
    (directory repo_name : string) :
  (forall root dirs files,
     In (root, dirs, files) (walk w directory) ->
     existsb (String.eqb ".git") dirs = false
     /\ forall filename check,
          In filename files -> In check Config.SENSITIVE_FILES ->
          _match_pattern filename (Config.pattern check) = false) ->
  scan w directory repo_name = [].
Proof.
  intros Hnone. unfold scan. apply flat_map_nil. intros check Hcheck.
  unfold scan_check. destruct (String.eqb (Config.pattern check) _).
  - apply flat_map_nil. intros [[root dirs] files] Hin.
    now rewrite (proj1 (Hnone root dirs files Hin)).
  - apply flat_map_nil. intros [[root dirs] files] Hin.
    apply flat_map_nil. intros filename Hf.
    now rewrite (proj2 (Hnone root dirs files Hin) filename check Hf Hcheck).
Qed.

Lemma scan_reports_nothing_without_match_witness :
  scan (Examples.with_file "gshadow") "/x" "img" = [].
Proof.
  apply (scan_reports_nothing_without_match (Examples.with_file "gshadow")).
  intros root dirs files [Hin|[Hin|[]]]; injection Hin as <- <- <-.
  - split; [reflexivity|]. intros filename check [].
  - split; [reflexivity|]. intros filename check [<-|[]] Hcheck.
    unfold Config.SENSITIVE_FILES in Hcheck. cbn [In] in Hcheck.
    repeat (destruct Hcheck as [<-|Hcheck]; [reflexivity|]).
    destruct Hcheck.
Defined.

End scanner_extras.

Section scanner_reports.
Import Text FileScanner.

Lemma scan_includes_check (w : World) (directory repo_name : string)
    (check : Config.check) (finding : string) :
  In check Config.SENSITIVE_FILES ->
  In finding (scan_check w directory check) ->
  In finding (scan w directory repo_name).
Proof. intros Hc Hf. unfold scan. apply in_flat_map. eauto. Qed.

(** X15.  No file whose name matches a rule is missed: for a rule that
    flags existence the scan holds the finding with the rule's title and
    the path; for a rule that captures content it holds the finding with
    the path, also when the file cannot be read, and the finding with
    the content when it can; for the shadow rule it holds whatever
    [_check_shadow] finds in the file. *)
Theorem matching_file_is_reported (w : World) (directory repo_name : string)
    (check : Config.check) (root filename : string)
    (dirs files : list string) :
  In check Config.SENSITIVE_FILES ->
  Config.pattern check <> ".git/config" ->
  In (root, dirs, files) (walk w directory) ->
  In filename files ->
  _match_pattern filename (Config.pattern check) = true ->
  let filepath := path_join root filename in
  match Config.action_type check with
  | Config.exist =>
      In ("Found " +:+ Config.name check +:+ ": " +:+ filepath)
        (scan w directory repo_name)
  | Config.cat =>
      In ("Found sensitive file: " +:+ filepath) (scan w directory repo_name)
      /\ forall content,
           read_text w filepath = Some content ->
           In ("Content of " +:+ filepath +:+ ":" +:+ newline +:+ content)
             (scan w directory repo_name)
  | Config.shadow =>
      forall finding,
        In finding (_check_shadow w filepath) ->
        In finding (scan w directory repo_name)
  end.
Proof.
  intros Hcheck Hgit Hwalk Hfile Hmatch filepath.
  assert (Hrule : forall finding,
            In finding
              match Config.action_type check with
              | Config.shadow => _check_shadow w filepath
              | Config.cat => _cat_file w filepath
              | Config.exist =>
                  ["Found " +:+ Config.name check +:+ ": " +:+ filepath]
              end ->
            In finding (scan w directory repo_name)).
  { intros finding Hf.
    apply (scan_includes_check w directory repo_name check finding Hcheck).
    unfold scan_check. apply String.eqb_neq in Hgit. rewrite Hgit.
    apply in_flat_map. exists (root, dirs, files). split; [exact Hwalk|].
    apply in_flat_map. exists filename. split; [exact Hfile|].
    now rewrite Hmatch. }
  destruct (Config.action_type check).
  - exact Hrule.
  - apply Hrule. now left.
  - split.
    + apply Hrule. now left.
    + intros content Hread. apply Hrule. unfold _cat_file.
      rewrite Hread. right. now left.
Qed.

Lemma matching_file_is_reported_witness :
  In "Found SSH KEY: /x/etc/my_ID_RSA"
    (scan (Examples.with_file "my_ID_RSA") "/x" "img").
Proof.
  exact (matching_file_is_reported (Examples.with_file "my_ID_RSA") "/x"
           "img"
           {| Config.name := "SSH KEY"; Config.pattern := "*id_[rd]sa";
              Config.action_type := Config.exist |}
           "/x/etc" "my_ID_RSA" [] ["my_ID_RSA"]
           (or_intror (or_introl eq_refl))
           ltac:(discriminate)
           (or_intror (or_introl eq_refl))
           (or_introl eq_refl) eq_refl).
Defined.

(** X16.  The GIT CONFIG rule is matched on the structure of the tree:
    for every directory that holds a [.git] directory with a [config]
    entry, the scan reports the [.git] directory and the [config] file,
    and the content of that file when it can be read; a [.git] directory
    without [config] adds nothing under this rule. *)
Theorem git_config_is_reported (w : World) (directory repo_name root : string)
    (dirs files : list string) :
  In (root, dirs, files) (walk w directory) ->
  In ".git" dirs ->
  let git_dir := path_join root ".git" in
  let config_file := path_join git_dir "config" in
  (path_exists w config_file = true ->
   In ("Found GIT CONFIG: " +:+ git_dir) (scan w directory repo_name)
   /\ In ("Found sensitive file: " +:+ config_file)
        (scan w directory repo_name)
   /\ forall content,
        read_text w config_file = Some content ->
        In ("Content of " +:+ config_file +:+ ":" +:+ newline +:+ content)
          (scan w directory repo_name))
  /\ ((forall root' dirs' files',
         In (root', dirs', files') (walk w directory) ->
         path_exists w (path_join (path_join root' ".git") "config") = false) ->
      scan_check w directory
        {| Config.name := "GIT CONFIG"; Config.pattern := ".git/config";
           Config.action_type := Config.cat |} = []).
Proof.
  intros Hwalk Hgit git_dir config_file. split.
  - intros Hex.
    assert (Hrule : forall finding,
              In finding (("Found GIT CONFIG: " +:+ git_dir)
                            :: _cat_file w config_file) ->
              In finding (scan w directory repo_name)).
    { intros finding Hf.
      apply (scan_includes_check w directory repo_name
               {| Config.name := "GIT CONFIG"; Config.pattern := ".git/config";
                  Config.action_type := Config.cat |});
        [right; right; left; reflexivity|].
      unfold scan_check. cbn [Config.pattern]. rewrite String.eqb_refl.
      apply in_flat_map. exists (root, dirs, files). split; [exact Hwalk|].
      assert (Hd : existsb (String.eqb ".git") dirs = true).
      { apply existsb_exists. exists ".git". split; [exact Hgit|reflexivity]. }
      rewrite Hd. fold git_dir. fold config_file. now rewrite Hex. }
    split; [apply Hrule; now left|]. split.
    + apply Hrule. right. now left.
    + intros content Hread. apply Hrule. right. unfold _cat_file.
      rewrite Hread. right. now left.
  - intros Hnone. unfold scan_check. cbn [Config.pattern].
    rewrite String.eqb_refl. apply flat_map_nil.
    intros [[root' dirs'] files'] Hin.
    rewrite (Hnone root' dirs' files' Hin).
    now destruct (existsb _ dirs').
Qed.

End scanner_reports.

(** ** The per-image pipeline: inspection, working directory, artifact *)

Section pipeline_extras.
Import Text Klepto2.

Lemma process_image_inspect_raise (cfg : Config.settings) (w : World)
    (image_name : string) (e : exn) :
  image_info_of (skopeo_inspect w (resolved w image_name)) = Raise e ->
  process_image cfg w image_name
  = (fst (resolve_tag w image_name)
       ++ [SkopeoInspect (resolved w image_name)],
     Raise e).
Proof.
  intros Hinfo. unfold process_image.
  rewrite (proj1 (resolve_tag_ok w image_name)).
  cbn [bind emit]. unfold lift. rewrite Hinfo. reflexivity.
Qed.

Lemma py_len_length (v : json) :
  py_len v = match json_length v with
             | Some n => Ok n
             | None => Raise TypeError
             end.
Proof. destruct v; reflexivity. Qed.

(** X17.  The metadata of the artifact.  An exception of the inspection
    is passed on.  The metadata is empty when the inspection gave
    nothing or a falsy document (null, false, zero, an empty text, array
    or object).  A truthy document that is not an object gives
    [AttributeError].  For an object with an entry, a [Layers] without a
    length (null, a boolean, a number) gives [TypeError], and so does an
    [Env] that is truthy and without a length; in every other case the
    metadata holds the six keys [Created], [Architecture], [Os],
    [LayersCount], [Env] and [Labels], with [Unknown] for a missing
    text, the length of [Layers] (none when the key is missing), and an
    empty default for [Env] and [Labels].  No other exception
    arises. *)
Theorem image_info_shape :
  (forall e : exn, image_info_of (Raise e) = Raise e)
  /\ image_info_of (Ok None) = Ok (JObj [])
  /\ image_info_of (Ok (Some (JObj []))) = Ok (JObj [])
  /\ (forall m : json,
        In m [JNull; JBool false; JNum 0; JStr EmptyString; JArr [];
              JObj []] ->
        image_info_of (Ok (Some m)) = Ok (JObj []))
  /\ (forall m : json,
        (forall d, m <> JObj d) ->
        ~ In m [JNull; JBool false; JNum 0; JStr EmptyString; JArr []] ->
        image_info_of (Ok (Some m)) = Raise AttributeError)
  /\ (forall d : list (string * json),
        d <> [] ->
        json_length (dict_get_or "Layers" (JArr []) d) = None ->
        image_info_of (Ok (Some (JObj d))) = Raise TypeError)
  /\ (forall (d : list (string * json)) (n : Z),
        d <> [] ->
        json_length (dict_get_or "Layers" (JArr []) d) = Some n ->
        json_length (dict_get_or "Env" (JArr []) d) = None ->
        ~ In (dict_get_or "Env" (JArr []) d) [JNull; JBool false; JNum 0] ->
        image_info_of (Ok (Some (JObj d))) = Raise TypeError)
  /\ (forall (d : list (string * json)) (n : Z),
        d <> [] ->
        json_length (dict_get_or "Layers" (JArr []) d) = Some n ->
        (json_length (dict_get_or "Env" (JArr []) d) <> None
         \/ In (dict_get_or "Env" (JArr []) d) [JNull; JBool false; JNum 0]) ->
        image_info_of (Ok (Some (JObj d)))
        = Ok (JObj
                [ ("Created", dict_get_or "Created" (JStr "Unknown") d);
                  ("Architecture",
                   dict_get_or "Architecture" (JStr "Unknown") d);
                  ("Os", dict_get_or "Os" (JStr "Unknown") d);
                  ("LayersCount", JNum n);
                  ("Env", dict_get_or "Env" (JArr []) d);
                  ("Labels", dict_get_or "Labels" (JObj []) d) ]))
  /\ (forall (d : list (string * json)) (layers env : list json),
        d <> [] ->
        dict_get_or "Layers" (JArr []) d = JArr layers ->
        dict_get_or "Env" (JArr []) d = JArr env ->
        image_info_of (Ok (Some (JObj d)))
        = Ok (JObj
                [ ("Created", dict_get_or "Created" (JStr "Unknown") d);
                  ("Architecture",
                   dict_get_or "Architecture" (JStr "Unknown") d);
                  ("Os", dict_get_or "Os" (JStr "Unknown") d);
                  ("LayersCount", JNum (Z.of_nat (length layers)));
                  ("Env", JArr env);
                  ("Labels", dict_get_or "Labels" (JObj []) d) ]))
  /\ (forall (m : json) (e : exn),
        image_info_of (Ok (Some m)) = Raise e ->
        truthy m = true
        /\ ((e = AttributeError /\ forall d, m <> JObj d)
            \/ (e = TypeError
                /\ exists d, m = JObj d
                     /\ (json_length (dict_get_or "Layers" (JArr []) d) = None
                         \/ json_length (dict_get_or "Env" (JArr []) d)
                            = None))))
  /\ image_info_of
       (Ok (Some (JObj [("Os", JStr "linux");
                        ("Layers", JArr [JStr "sha256:a"; JStr "sha256:b"]);
                        ("Env", JArr [JStr "PATH=/bin"])])))
     = Ok (JObj [ ("Created", JStr "Unknown");
                  ("Architecture", JStr "Unknown");
                  ("Os", JStr "linux");
                  ("LayersCount", JNum 2);
                  ("Env", JArr [JStr "PATH=/bin"]);
                  ("Labels", JObj []) ])
  /\ image_info_of (Ok (Some (JObj [("Os", JStr "linux"); ("Env", JNum 0)])))
     = Ok (JObj [ ("Created", JStr "Unknown");
                  ("Architecture", JStr "Unknown");
                  ("Os", JStr "linux");
                  ("LayersCount", JNum 0);
                  ("Env", JNum 0);
                  ("Labels", JObj []) ])
  /\ image_info_of (Ok (Some (JObj [("Layers", JNull)]))) = Raise TypeError
  /\ image_info_of (Ok (Some (JObj [("Env", JNum 7)]))) = Raise TypeError
  /\ image_info_of (Ok (Some (JArr [JObj [("Os", JStr "linux")]])))
     = Raise AttributeError
  /\ image_info_of (Ok (Some (JStr "linux"))) = Raise AttributeError.
Proof.
  assert (Hfalsy : forall v : json,
            truthy v = false
            <-> In v [JNull; JBool false; JNum 0; JStr EmptyString; JArr [];
                      JObj []]).
  { intros v. cbn [In]. split.
    - destruct v as [|[|]|z|s|[|x l]|[|kv d]]; cbn [truthy]; intros H;
        try discriminate; auto 7.
      + apply negb_false_iff, Z.eqb_eq in H. subst z. auto.
      + apply negb_false_iff, String.eqb_eq in H. subst s. auto 6.
    - intros [<-|[<-|[<-|[<-|[<-|[<-|[]]]]]]]; reflexivity. }
  assert (Hunsized : forall v : json,
            json_length v = None ->
            truthy v = false <-> In v [JNull; JBool false; JNum 0]).
  { intros v Hv. rewrite Hfalsy. cbn [In].
    destruct v; try discriminate Hv; intuition congruence. }
  assert (Hobj : forall (d : list (string * json)),
            d <> [] ->
            image_info_of (Ok (Some (JObj d)))
            = match json_length (dict_get_or "Layers" (JArr []) d) with
              | None => Raise TypeError
              | Some n =>
                  let info :=
                    JObj
                      [ ("Created", dict_get_or "Created" (JStr "Unknown") d);
                        ("Architecture",
                         dict_get_or "Architecture" (JStr "Unknown") d);
                        ("Os", dict_get_or "Os" (JStr "Unknown") d);
                        ("LayersCount", JNum n);
                        ("Env", dict_get_or "Env" (JArr []) d);
                        ("Labels", dict_get_or "Labels" (JObj []) d) ] in
                  if truthy (dict_get_or "Env" (JArr []) d)
                  then match json_length (dict_get_or "Env" (JArr []) d) with
                       | None => Raise TypeError
                       | Some _ => Ok info
                       end
                  else Ok info
              end).
  { intros d Hd. unfold image_info_of.
    destruct d as [|kv d]; [contradiction|]. cbn [truthy].
    rewrite !py_len_length.
    destruct (json_length (dict_get_or "Layers" _ _)); [|reflexivity].
    destruct (truthy _); [|reflexivity].
    destruct (json_length (dict_get_or "Env" _ _)); reflexivity. }
  split; [reflexivity|]. split; [reflexivity|]. split; [reflexivity|].
  split.
  { intros m Hm. apply Hfalsy in Hm. unfold image_info_of. now rewrite Hm. }
  split.
  { intros m Hobj' Hm.
    assert (Ht : truthy m = true).
    { destruct (truthy m) eqn:Ht; [reflexivity|].
      apply Hfalsy in Ht. exfalso. apply Hm. cbn [In] in *.
      repeat (destruct Ht as [Ht|Ht]; [auto 6|]);
        [now destruct (Hobj' [])|destruct Ht]. }
    unfold image_info_of. rewrite Ht.
    destruct m; try reflexivity. now destruct (Hobj' d). }
  split.
  { intros d Hd Hl. now rewrite (Hobj d Hd), Hl. }
  split.
  { intros d n Hd Hl He Hne. rewrite (Hobj d Hd), Hl, He. cbv zeta.
    destruct (truthy _) eqn:Ht; [reflexivity|].
    apply (Hunsized _ He) in Ht. contradiction. }
  split.
  { intros d n Hd Hl He. rewrite (Hobj d Hd), Hl. cbv zeta.
    destruct (truthy _) eqn:Ht; [|reflexivity].
    destruct (json_length (dict_get_or "Env" (JArr []) d)) eqn:Hlen;
      [reflexivity|].
    destruct He as [He|He]; [now destruct He|].
    apply (Hunsized _ Hlen) in He. congruence. }
  split.
  { intros d layers env Hd Hl He. rewrite (Hobj d Hd), Hl, He.
    cbn [json_length truthy]. destruct env; reflexivity. }
  split; [|repeat split].
  intros m e H.
  assert (Ht : truthy m = true).
  { destruct (truthy m) eqn:Ht; [reflexivity|].
    unfold image_info_of in H. now rewrite Ht in H. }
  split; [exact Ht|].
  destruct m as [|b|z|s|l|d];
    try (unfold image_info_of in H; rewrite Ht in H; injection H as <-;
         left; split; [reflexivity|intros d'; discriminate]).
  right. assert (Hd : d <> []) by (intros ->; discriminate).
  rewrite (Hobj d Hd) in H.
  destruct (json_length (dict_get_or "Layers" (JArr []) d)) eqn:Hl.
  - cbv zeta in H.
    destruct (truthy _); [|discriminate].
    destruct (json_length (dict_get_or "Env" (JArr []) d)) eqn:He;
      [discriminate|].
    injection H as <-. split; [reflexivity|]. exists d. auto.
  - injection H as <-. split; [reflexivity|]. exists d. auto.
Qed.

(** X18.  When the answer of the inspection cannot be turned into the
    metadata (the cases of X17), [process_image] ends with that
    exception right after the inspection: the image is not pulled, no
    working directory is taken or released, nothing is written, and the
    task logs the error. *)
Theorem malformed_inspection_aborts_before_pull (cfg : Config.settings)
    (w : World) (image_name : string) (e : exn) :
  image_info_of (skopeo_inspect w (resolved w image_name)) = Raise e ->
  process_image cfg w image_name
  = (fst (resolve_tag w image_name)
       ++ [SkopeoInspect (resolved w image_name)],
     Raise e)
  /\ (forall name dest ok,
        ~ In (SkopeoPull name dest ok) (fst (process_image cfg w image_name)))
  /\ (forall dir, written (fst (process_image cfg w image_name)) dir = dir)
  /\ task cfg w image_name
     = (fst (process_image cfg w image_name) ++ [LogError image_name e],
        Ok tt).
Proof.
  intros Hinfo.
  pose proof (process_image_inspect_raise cfg w image_name e Hinfo) as Hrun.
  assert (Hkinds : forall ev,
            In ev (fst (process_image cfg w image_name)) ->
            ev = HubTags (hub_repo image_name)
            \/ ev = SkopeoInspect (resolved w image_name)).
  { rewrite Hrun. cbn [fst]. intros ev Hin.
    apply in_app_or in Hin as [Hin|[<-|[]]]; [|now right].
    destruct (proj2 (resolve_tag_ok w image_name)) as [He|He];
      rewrite He in Hin; [destruct Hin|].
    destruct Hin as [<-|[]]. now left. }
  split; [exact Hrun|]. split; [|split].
  - intros name dest ok Hin. destruct (Hkinds _ Hin); discriminate.
  - intros dir. apply written_no_write. intros ev Hin.
    destruct (Hkinds _ Hin) as [-> | ->]; reflexivity.
  - unfold task. rewrite Hrun. reflexivity.
Qed.

End pipeline_extras.

Section pipeline_outcomes.
Import Text Klepto2.










End pipeline_outcomes.

Section pipeline_success.
Import Text Klepto2.







End pipeline_success.

(** ** Scheduler: the modes and the idle run *)

Section scheduler_extras.
Import Text Klepto2.

Lemma unique_nil : unique [] = [].
Proof. unfold unique. cbn [list_to_set]. apply elements_empty. Qed.

(** X23.  Mode [image] takes the inputs as they are and never calls the
    registry search; mode [search] searches every input in order, and a
    failed search adds no name and stops nothing.  A run with no input,
    with a mode other than the three, or whose searches find nothing
    submits no task: after the searches it does nothing. *)
Theorem run_is_idle_without_names (cfg : Config.settings) (w : World) :
  (forall inputs : list string,
     resolve_inputs w inputs "image" = ([], Ok inputs))
  /\ (forall inputs : list string,
        resolve_inputs w inputs "search"
        = (map HubSearch inputs,
           Ok (flat_map
                 (fun term =>
                    match hub_search w term with
                    | Some found => found
                    | None => []
                    end)
                 inputs)))
  /\ (forall mode : string, run cfg w [] mode = ([], Ok tt))
  /\ (forall (inputs : list string) (mode : string),
        mode <> "search" -> mode <> "image" -> mode <> "mixed" ->
        run cfg w inputs mode = ([], Ok tt))
  /\ (forall inputs : list string,
        (forall term, In term inputs ->
           hub_search w term = None \/ hub_search w term = Some []) ->
        run cfg w inputs "search" = (map HubSearch inputs, Ok tt)).
Proof.
  split; [reflexivity|]. split; [exact (search_all_ok w)|].
  split; [|split].
  - intros mode. unfold run, resolve_inputs.
    destruct (String.eqb mode "search"); [reflexivity|].
    destruct (String.eqb mode "image"); [reflexivity|].
    destruct (String.eqb mode "mixed"); reflexivity.
  - intros inputs mode H1 H2 H3. unfold run, resolve_inputs.
    apply String.eqb_neq in H1, H2, H3. rewrite H1, H2, H3.
    cbn [bind ret]. rewrite unique_nil. reflexivity.
  - intros inputs Hnone. unfold run, resolve_inputs.
    change (String.eqb "search" "search") with true. cbn iota.
    rewrite search_all_ok. cbn [bind].
    replace (flat_map _ inputs) with (@nil string).
    + rewrite unique_nil. cbn. now rewrite app_nil_r.
    + symmetry. apply flat_map_nil. intros term Hin.
      destruct (Hnone term Hin) as [-> | ->]; reflexivity.
Qed.

Lemma run_is_idle_without_names_witness :
  run Config.defaults Samples.one_hit ["redis"; "postgres"] "search"
  = ([HubSearch "redis"; HubSearch "postgres"], Ok tt)
  /\ run Config.defaults Samples.one_hit ["redis"; "postgres"] "scan"
     = ([], Ok tt).
Proof.
  destruct (run_is_idle_without_names Config.defaults Samples.one_hit)
    as (_ & _ & _ & Hmode & Hsearch).
  split.
  - apply (Hsearch ["redis"; "postgres"]).
    intros term [<-|[<-|[]]]; left; reflexivity.
  - apply (Hmode ["redis"; "postgres"] "scan"); discriminate.
Defined.

End scheduler_extras.

(** ** Witnesses on sample trees *)

Section sample_witnesses.
Import Text FileScanner Klepto2.

Lemma git_config_is_reported_witness :
  In "Found GIT CONFIG: /x/app/.git" (scan Samples.git_tree "/x" "img")
  /\ In "Found sensitive file: /x/app/.git/config"
       (scan Samples.git_tree "/x" "img").
Proof.
  destruct (proj1 (git_config_is_reported Samples.git_tree "/x" "img"
                     "/x/app" [".git"; "src"] ["README"]
                     (or_intror (or_introl eq_refl))
                     (or_introl eq_refl)) eq_refl)
    as (Hdir & Hfile & _).
  split; [exact Hdir|exact Hfile].
Defined.

Lemma image_info_shape_witness :
  image_info_of
    (Ok (Some (JObj [("Architecture", JStr "amd64");
                     ("Layers", JStr "sha256:a");
                     ("Env", JNull)])))
  = Ok (JObj [ ("Created", JStr "Unknown");
               ("Architecture", JStr "amd64");
               ("Os", JStr "Unknown");
               ("LayersCount", JNum 8);
               ("Env", JNull);
               ("Labels", JObj []) ])
  /\ image_info_of (Ok (Some (JObj [("Layers", JBool true)])))
     = Raise TypeError
  /\ image_info_of (Ok (Some (JNum 5))) = Raise AttributeError.
Proof.
  destruct image_info_shape
    as (_ & _ & _ & _ & Hattr & Hlayers & _ & Hok & _).
  split; [|split].
  - refine (Hok [("Architecture", JStr "amd64");
                 ("Layers", JStr "sha256:a");
                 ("Env", JNull)] 8 _ eq_refl _).
    + discriminate.
    + right. left. reflexivity.
  - apply (Hlayers [("Layers", JBool true)]); [discriminate|reflexivity].
  - apply (Hattr (JNum 5)); [discriminate|].
    intros [H|[H|[H|[H|[H|[]]]]]]; discriminate.
Defined.

Lemma malformed_inspection_aborts_before_pull_witness :
  process_image Config.defaults Samples.null_layers "nginx:1.25"
  = ([SkopeoInspect "nginx:1.25"], Raise TypeError).
Proof.
  exact (proj1 (malformed_inspection_aborts_before_pull Config.defaults
                  Samples.null_layers "nginx:1.25" TypeError eq_refl)).
Defined.

End sample_witnesses.
